(** * wait-for-netlify-action: the polling state machine of [src/index.js]

    A shallow embedding of the three waiters ([waitForDeployCreation],
    [waitForReadiness], [waitForUrl]) and of the orchestrator [run].

    The program talks to the outside world (HTTP requests, the clock,
    timers, the console, the action's outputs and failure channel).  These
    effects are threaded explicitly: a computation is a function from the
    state of the [world] to an [outcome] and a new world, and every effect
    the program performs is recorded in the world's [trace].

    Each waiter of the source retries by calling itself again and has no
    bound on the number of iterations.  The embedding takes a [fuel]
    argument that bounds the number of iterations run; a computation that
    exhausts it is [Pending], i.e. still polling. *)

From Stdlib Require Import ZArith QArith Qround List String Ascii Bool Lia.
From Stdlib Require Import DecimalString Lqa.
Import ListNotations.

Local Open Scope string_scope.
Local Open Scope Z_scope.

(** ** JavaScript values *)

(** A JavaScript number: a finite value, taken as an exact rational, or
    [NaN].  The program only ever subtracts two millisecond time stamps,
    divides and multiplies by powers of ten and by three, and rounds.  The
    two infinities are not represented. *)
Inductive number : Type :=
| Num (q : Q)
| NaN.

(** A JSON field of a provider record, or a variable that holds one:
    absent, [null] or a string. *)
Inductive value : Type :=
| Undefined
| Null
| Str (s : string).

(** [a === b] on such values. *)
Definition strict_eq (a b : value) : bool :=
  match a, b with
  | Undefined, Undefined => true
  | Null, Null => true
  | Str s, Str t => String.eqb s t
  | _, _ => false
  end.

(** [!v]: [undefined], [null] and the empty string are falsy. *)
Definition falsy (v : value) : bool :=
  match v with
  | Undefined | Null => true
  | Str s => String.eqb s ""
  end.

(** [`${v}`] *)
Definition template (v : value) : string :=
  match v with
  | Undefined => "undefined"
  | Null => "null"
  | Str s => s
  end.

(** ToNumber of an argument that may have been omitted at the call. *)
Definition ToNumber (v : option number) : number :=
  match v with
  | Some n => n
  | None => NaN
  end.

Definition js_sub (a b : number) : number :=
  match a, b with
  | Num x, Num y => Num (x - y)%Q
  | _, _ => NaN
  end.

Definition js_mul (a b : number) : number :=
  match a, b with
  | Num x, Num y => Num (x * y)%Q
  | _, _ => NaN
  end.

(** Division by a non-zero constant; the program divides by 1000, 10 and 3
    only. *)
Definition js_div (a b : number) : number :=
  match a, b with
  | Num x, Num y => Num (x / y)%Q
  | _, _ => NaN
  end.

(** [a > b] and [a < b]: every comparison with [NaN] is false. *)
Definition js_gt (a b : number) : bool :=
  match a, b with
  | Num x, Num y => negb (Qle_bool x y)
  | _, _ => false
  end.

Definition js_lt (a b : number) : bool := js_gt b a.

(** [Math.round]: to the nearest integer, halves towards plus infinity. *)
Definition Math_round (a : number) : number :=
  match a with
  | Num x => Num (inject_Z (Qfloor (x + (1 # 2))%Q))
  | NaN => NaN
  end.

(** [x || 60] on a number: zero and [NaN] are falsy. *)
Definition number_or (a : number) (dflt : number) : number :=
  match a with
  | Num x => if Qeq_bool x 0%Q then dflt else a
  | NaN => dflt
  end.

Definition of_Z (z : Z) : number := Num (inject_Z z).

Definition string_of_Z (z : Z) : string := NilZero.string_of_int (Z.to_int z).

(** [`${n}`] for a number.  Exact for numbers with at most one decimal
    digit, which is all the program prints: the integer time budgets and
    retry intervals, and the results of [ellapsedSeconds]. *)
Definition number_to_string (n : number) : string :=
  match n with
  | NaN => "NaN"
  | Num q =>
      let t := Qfloor (q * 10)%Q in
      let a := Z.abs t in
      (if t <? 0 then "-" else "")
        ++ string_of_Z (a / 10)
        ++ (if a mod 10 =? 0 then "" else "." ++ string_of_Z (a mod 10))
  end.

(** ** Provider records *)

Module Deploy.
(** A deployment record as the provider returns it; the fields the
    program reads. *)
Record t : Type := mk {
  id : value;
  name : value;
  commit_ref : value;
  context : value;
  state : value
}.
End Deploy.

(** The [data] member of an axios response to a request of the provider's
    API: absent, [null], a list of deployment records or one deployment
    record.  Other JSON data (text, numbers, lists with other elements) is
    not represented. *)
Inductive body : Type :=
| Absent
| JSONNull
| Array (l : list Deploy.t)
| Object (d : Deploy.t).

(** ** Errors *)

Inductive error : Type :=
| Error (message : string)
| TypeError (message : string)
| AxiosError (code : value) (message : string).

Definition message (e : error) : string :=
  match e with
  | Error m | TypeError m | AxiosError _ m => m
  end.

Definition code (e : error) : value :=
  match e with
  | AxiosError c _ => c
  | _ => Undefined
  end.

(** ** The world *)

Inductive request : Type :=
| GET (url authorization : string)
| HEAD (url : string).

Inductive settled : Type :=
| Fulfilled (data : body)
| Rejected (e : error).

(** What the network does with a request: how long it takes (in
    milliseconds) and how the promise settles. *)
Record response : Type := {
  duration : Z;
  result : settled
}.

(** The network answers the [k]-th request of the run. *)
Definition network : Type := nat -> request -> response.

Inductive event : Type :=
| Http (r : request)
| Sleep (ms : Z)
| Log (msg : string) (obj : list (string * value))
| SetFailed (msg : string)
| SetOutput (key : string) (v : value).

(** [clock] is [Date.now()], [sent] the number of requests issued so far,
    [trace] the effects performed so far, the most recent first. *)
Record world : Type := {
  clock : Z;
  sent : nat;
  trace : list event
}.

Definition record (e : event) (w : world) : world :=
  {| clock := clock w; sent := sent w; trace := e :: trace w |}.

(** ** Computations *)

Inductive outcome (A : Type) : Type :=
| Return (a : A)
| Throw (e : error)
| Pending.

Arguments Return {A} a.
Arguments Throw {A} e.
Arguments Pending {A}.

Definition M (A : Type) : Type := world -> outcome A * world.

Definition ret {A} (a : A) : M A := fun w => (Return a, w).

Definition throw {A} (e : error) : M A := fun w => (Throw e, w).

Definition pending {A} : M A := fun w => (Pending, w).

Definition bind {A B} (m : M A) (k : A -> M B) : M B :=
  fun w =>
    match m w with
    | (Return a, w') => k a w'
    | (Throw e, w') => (Throw e, w')
    | (Pending, w') => (Pending, w')
    end.

(** [try { m } catch (e) { h e }] *)
Definition try_catch {A} (m : M A) (h : error -> M A) : M A :=
  fun w =>
    match m w with
    | (Throw e, w') => h e w'
    | r => r
    end.

(** [try { m; <ok> } catch (e) { <err e> }] with the result of the
    attempt made explicit. *)
Definition attempt {A} (m : M A) : M (error + A) :=
  fun w =>
    match m w with
    | (Return a, w') => (Return (inr a), w')
    | (Throw e, w') => (Return (inl e), w')
    | (Pending, w') => (Pending, w')
    end.

Notation "x <- m ;; k" := (bind m (fun x => k))
  (at level 61, m at next level, right associativity).
Notation "m ;; k" := (bind m (fun _ => k))
  (at level 61, right associativity).

(** ** Primitive effects *)

Definition Date_now : M Z := fun w => (Return (clock w), w).

Definition emit (e : event) : M unit := fun w => (Return tt, record e w).

Definition console_log (msg : string) : M unit := emit (Log msg []).

Definition console_log_obj (msg : string) (obj : list (string * value)) : M unit :=
  emit (Log msg obj).

Definition core_setFailed (msg : string) : M unit := emit (SetFailed msg).

Definition core_setOutput (key : string) (v : value) : M unit :=
  emit (SetOutput key v).

(** A timer of [ms] milliseconds: the clock has advanced by [ms] when the
    promise resolves. *)
Definition slept (ms : Z) (w : world) : world :=
  {| clock := clock w + ms; sent := sent w; trace := Sleep ms :: trace w |}.

Definition setTimeout (ms : Z) : M unit := fun w => (Return tt, slept ms w).

(** [waitForSeconds], lines 177-179. *)
Definition waitForSeconds (seconds : Z) : M unit := setTimeout (seconds * 1000).

(** [ellapsedSeconds], lines 172-175.  [timestamp] is [None] when the
    caller passes no argument. *)
Definition ellapsedSeconds (timestamp : option number) : M number :=
  now <- Date_now ;;
  let seconds := js_div (js_sub (of_Z now) (ToNumber timestamp)) (of_Z 1000) in
  ret (js_div (Math_round (js_mul seconds (of_Z 10))) (of_Z 10)).

Section Network.

Variable net : network.

(** An axios request: the promise settles after [duration] milliseconds;
    a rejected promise is thrown at the [await]. *)
Definition requested (r : request) (w : world) : world :=
  {| clock := clock w + duration (net (sent w) r);
     sent := S (sent w);
     trace := Http r :: trace w |}.

Definition axios (r : request) : M body :=
  fun w =>
    match result (net (sent w) r) with
    | Fulfilled d => (Return d, requested r w)
    | Rejected e => (Throw e, requested r w)
    end.

(** [process.env.NETLIFY_TOKEN] *)
Variable NETLIFY_TOKEN : value.

(** [getNetlifyUrl], lines 7-13. *)
Definition getNetlifyUrl (url : string) : M body :=
  axios (GET url ("Bearer " ++ template NETLIFY_TOKEN)).

Definition axios_head (url : string) : M body := axios (HEAD url).

End Network.

(** ** The ready states, line 5 *)

Definition READY_STATES : list string := ["ready"; "current"].

(** [READY_STATES.includes(v)] *)
Definition includes (l : list string) (v : value) : bool :=
  existsb (fun s => strict_eq (Str s) v) l.

(** ** [waitForDeployCreation], lines 15-52 *)

Module WaitForDeployCreation.
Section Closure.

Variable net : network.
Variable NETLIFY_TOKEN : value.
Variables (url : string) (commitSha : value) (timeoutSeconds : number)
        (context : string).

Definition retrySeconds : Z := 5.

(** The predicate given to [find], line 49. *)
Definition matches (d : Deploy.t) : bool :=
strict_eq (Deploy.commit_ref d) commitSha
&& (String.eqb context "" || strict_eq (Deploy.context d) (Str context)).

(** Lines 41-51. *)
Definition getCurrentDeploymentIfCreated : M (option Deploy.t) :=
netlifyDeployments <- getNetlifyUrl net NETLIFY_TOKEN url ;;
match netlifyDeployments with
| Absent | JSONNull => throw (Error "Failed to get deployments for site")
| Array l => ret (find matches l)
| Object _ => throw (TypeError "netlifyDeployments.find is not a function")
end.

Variable startTime : Z.

(** Lines 21-39.  One unit of fuel per call. *)
Fixpoint checkContinually (fuel : nat) : M Deploy.t :=
match fuel with
| O => pending
| S fuel' =>
    currentDeployment <- getCurrentDeploymentIfCreated ;;
    match currentDeployment with
    | Some d =>
        s <- ellapsedSeconds (Some (of_Z startTime)) ;;
        console_log ("Deployment created (" ++ number_to_string s ++ "s)") ;;
        ret d
    | None =>
        s <- ellapsedSeconds None ;;
        if js_gt s timeoutSeconds then
          throw (Error ("Timeout reached: Deployment was not ready within "
                          ++ number_to_string timeoutSeconds ++ " seconds."))
        else
          console_log ("Deploy not yet created. Trying again in "
                         ++ string_of_Z retrySeconds ++ " seconds...") ;;
          waitForSeconds retrySeconds ;;
          checkContinually fuel'
    end
end.

End Closure.
End WaitForDeployCreation.

Definition waitForDeployCreation (net : network) (NETLIFY_TOKEN : value)
    (url : string) (commitSha : value) (timeoutSeconds : number)
    (context : string) (fuel : nat) : M Deploy.t :=
  startTime <- Date_now ;;
  WaitForDeployCreation.checkContinually
    net NETLIFY_TOKEN url commitSha timeoutSeconds context startTime fuel.

(** ** [waitForReadiness], lines 54-88 *)

Module WaitForReadiness.
Section Closure.

Variable net : network.
Variable NETLIFY_TOKEN : value.
Variables (url : string) (timeoutSeconds : number).

Definition retrySeconds : Z := 10.

(** Lines 83-87.  The closure variable [latestDeployState] is threaded:
  the call returns its new content together with the result. *)
Definition isCurrentDeploymentReady : M (value * bool) :=
deploy <- getNetlifyUrl net NETLIFY_TOKEN url ;;
match deploy with
| Absent =>
    throw (TypeError "Cannot read properties of undefined (reading 'state')")
| JSONNull =>
    throw (TypeError "Cannot read properties of null (reading 'state')")
| Object d => ret (Deploy.state d, includes READY_STATES (Deploy.state d))
| Array _ => ret (Undefined, includes READY_STATES Undefined)
end.

Variable startTime : Z.

(** Lines 61-81.  [latestDeployState] is the content of the closure
  variable when the call starts. *)
Fixpoint checkContinually (fuel : nat) (latestDeployState : value) : M unit :=
match fuel with
| O => pending
| S fuel' =>
    r <- isCurrentDeploymentReady ;;
    let (latestDeployState, isReady) := r in
    if isReady then
      s <- ellapsedSeconds (Some (of_Z startTime)) ;;
      console_log ("Deployment ready (" ++ number_to_string s ++ "s)") ;;
      ret tt
    else
      s <- ellapsedSeconds None ;;
      if js_gt s timeoutSeconds then
        throw (Error ("Timeout reached: Deployment was not ready within "
                        ++ number_to_string timeoutSeconds
                        ++ " seconds. Last known deployment state: "
                        ++ template latestDeployState ++ "."))
      else
        console_log ("Deploy not yet ready (state = "
                       ++ template latestDeployState
                       ++ "). Trying again in "
                       ++ string_of_Z retrySeconds ++ " seconds...") ;;
        waitForSeconds retrySeconds ;;
        checkContinually fuel' latestDeployState
end.

End Closure.
End WaitForReadiness.

Definition waitForReadiness (net : network) (NETLIFY_TOKEN : value)
    (url : string) (timeoutSeconds : number) (fuel : nat) : M unit :=
  startTime <- Date_now ;;
  WaitForReadiness.checkContinually
    net NETLIFY_TOKEN url timeoutSeconds startTime fuel (Str "(unknown)").

(** ** [waitForUrl], lines 90-105 *)

Definition newline_tab : string :=
  String (ascii_of_nat 10) (String (ascii_of_nat 9) "").

Section WaitForUrl.

Variable net : network.
Variables (url : string) (iterations : number).

(** The [for] loop of lines 92-103, entered with counter [i]; one unit
    of fuel per run of the loop body.  The result is [true] when the
    function returned from inside the loop, [false] when the loop ended
    because its condition failed. *)
Fixpoint waitForUrl_loop (fuel : nat) (i : Z) : M bool :=
  if js_lt (of_Z i) iterations then
    match fuel with
    | O => pending
    | S fuel' =>
        r <- attempt (axios_head net url) ;;
        match r with
        | inr _ => ret true
        | inl e =>
            console_log_obj
              ("URL " ++ url ++ " unavailable, retrying..." ++ newline_tab)
              [("errorCode", code e); ("errorMessage", Str (message e))] ;;
            setTimeout 3000 ;;
            waitForUrl_loop fuel' (i + 1)
        end
    end
  else ret false.

End WaitForUrl.

Definition waitForUrl (net : network) (url : string) (timeoutSeconds : number)
    (fuel : nat) : M unit :=
  let iterations := js_div timeoutSeconds (of_Z 3) in
  returned <- waitForUrl_loop net url iterations fuel 0 ;;
  if returned then ret tt
  else core_setFailed ("Timeout reached: Unable to connect to " ++ url).

(** ** [run], lines 107-164 *)

(** What [run] reads from its environment. *)
Record config : Type := {
  (** [process.env.NETLIFY_TOKEN] *)
  env_NETLIFY_TOKEN : value;
  (** [github.context.eventName] *)
  eventName : string;
  (** [github.context.payload.pull_request.head.sha]; [None] when the
      payload has no [pull_request] *)
  pull_request_head_sha : option value;
  (** [github.context.sha] *)
  sha : value;
  (** [Number(core.getInput('max_timeout'))] *)
  input_max_timeout : number;
  (** [core.getInput('site_id')], the empty string when not provided *)
  input_site_id : string;
  (** [core.getInput('context')], the empty string when not provided *)
  input_context : string
}.

Definition when (b : bool) (m : M unit) : M unit := if b then m else ret tt.

Definition MAX_CREATE_TIMEOUT : number := of_Z (60 * 5).
Definition MAX_WAIT_TIMEOUT : number := of_Z (60 * 15).
Definition MAX_READY_TIMEOUT (cfg : config) : number :=
  number_or (input_max_timeout cfg) (of_Z 60).

(** Lines 110-113. *)
Definition resolve_commitSha (cfg : config) : M value :=
  if String.eqb (eventName cfg) "pull_request" then
    match pull_request_head_sha cfg with
    | Some v => ret v
    | None => throw (TypeError "Cannot read properties of undefined (reading 'head')")
    end
  else ret (sha cfg).

Definition deploys_url (siteId : string) : string :=
  "https://api.netlify.com/api/v1/sites/" ++ siteId ++ "/deploys".

Section Run.

Variable net : network.
Variable cfg : config.
Variable fuel : nat.

(** Lines 109-144: the [try] block up to and including phase 1. *)
Definition run_phase1 : M Deploy.t :=
  let netlifyToken := env_NETLIFY_TOKEN cfg in
  commitSha <- resolve_commitSha cfg ;;
  let siteId := input_site_id cfg in
  let context := input_context cfg in
  when (falsy netlifyToken)
    (core_setFailed "Please set NETLIFY_TOKEN env variable to your Netlify Personal Access Token secret") ;;
  when (falsy commitSha)
    (core_setFailed "Could not determine GitHub commit") ;;
  when (String.eqb siteId "")
    (core_setFailed "Required field `site_id` was not provided") ;;
  let message := "Waiting for Netlify to create a deployment for git SHA "
                   ++ template commitSha in
  let message := if String.eqb context "" then message
                 else message ++ " and context " ++ context in
  console_log message ;;
  waitForDeployCreation net netlifyToken (deploys_url siteId)
    commitSha MAX_CREATE_TIMEOUT context fuel.

(** [url] of line 146. *)
Definition deploy_url (commitDeployment : Deploy.t) : string :=
  "https://" ++ template (Deploy.id commitDeployment) ++ "--"
    ++ template (Deploy.name commitDeployment) ++ ".netlify.app".

(** Lines 146-160: the rest of the [try] block. *)
Definition run_phase23 (commitDeployment : Deploy.t) : M unit :=
  let url := deploy_url commitDeployment in
  core_setOutput "deploy_id" (Deploy.id commitDeployment) ;;
  core_setOutput "url" (Str url) ;;
  console_log ("Waiting for Netlify deployment "
                 ++ template (Deploy.id commitDeployment) ++ " in site "
                 ++ template (Deploy.name commitDeployment) ++ " to be ready") ;;
  waitForReadiness net (env_NETLIFY_TOKEN cfg)
    (deploys_url (input_site_id cfg) ++ "/"
       ++ template (Deploy.id commitDeployment))
    MAX_WAIT_TIMEOUT fuel ;;
  console_log ("Waiting for a 200 from: " ++ url) ;;
  waitForUrl net url (MAX_READY_TIMEOUT cfg) fuel.

(** Lines 107-164. *)
Definition run : M unit :=
  try_catch
    (commitDeployment <- run_phase1 ;; run_phase23 commitDeployment)
    (fun error => core_setFailed (message error)).

End Run.

(** ** Reading a trace *)

Definition is_http (e : event) : bool :=
  match e with Http _ => true | _ => false end.

Definition is_head (e : event) : bool :=
  match e with Http (HEAD _) => true | _ => false end.

Definition is_sleep (e : event) : bool :=
  match e with Sleep _ => true | _ => false end.

Definition is_failed (e : event) : bool :=
  match e with SetFailed _ => true | _ => false end.

(** The promise of a request was rejected. *)
Definition rejected (s : settled) : bool :=
  match s with Rejected _ => true | Fulfilled _ => false end.

(** The number of effects in a trace that satisfy [p]. *)
Definition count (p : event -> bool) (t : list event) : nat :=
  List.length (filter p t).

(** [m] only adds effects that satisfy [P] to the trace, whatever its
    outcome. *)
Definition emits_only {A} (P : event -> Prop) (m : M A) : Prop :=
  forall w, exists new, trace (snd (m w)) = (new ++ trace w)%list /\ Forall P new.

(** The trace [t] is an initial part of the history of [w]. *)
Definition reached (t : list event) (w : world) : Prop :=
  exists later, trace w = (later ++ t)%list.

Definition any_event : event -> Prop := fun _ => True.

(** Among the requests, only [r]. *)
Definition requests_only (r : request) : event -> Prop :=
  fun e => is_http e = true -> e = Http r.

Definition initial : world := {| clock := 0; sent := 0; trace := [] |}.

(** ** Scenarios *)

Definition secret : value := Str "secret".

Definition list_endpoint : string := deploys_url "site".

Definition other_deploy : Deploy.t :=
  Deploy.mk (Str "d0") (Str "mysite") (Str "0000000") (Str "production")
    (Str "ready").

(** The deployments list never holds a record for the commit. *)
Definition never_matching : network :=
  fun _ _ => {| duration := 0; result := Fulfilled (Array [other_deploy]) |}.

Definition failed_deploy : Deploy.t :=
  Deploy.mk (Str "xyz") (Str "mysite") (Str "abc123") (Str "deploy-preview")
    (Str "error").

(** The status of the deployment is always ["error"]. *)
Definition always_error : network :=
  fun _ _ => {| duration := 0; result := Fulfilled (Object failed_deploy) |}.

(** The deployments list endpoint answers without data. *)
Definition no_data : network :=
  fun _ _ => {| duration := 40; result := Fulfilled JSONNull |}.

Definition status_endpoint : string := list_endpoint ++ "/xyz".

Definition building_deploy : Deploy.t :=
  Deploy.mk (Str "xyz") (Str "mysite") (Str "abc123") (Str "deploy-preview")
    (Str "building").

Definition ready_deploy : Deploy.t :=
  Deploy.mk (Str "xyz") (Str "mysite") (Str "abc123") (Str "deploy-preview")
    (Str "ready").

(** The status is ["building"] at the first request and ["ready"] from
    the second on. *)
Definition building_then_ready : network :=
  fun k _ =>
    {| duration := 0;
       result := Fulfilled (Object (if Nat.eqb k 0 then building_deploy
                                    else ready_deploy)) |}.

(** A push event with a complete configuration. *)
Definition push_config : config :=
  {| env_NETLIFY_TOKEN := secret;
     eventName := "push";
     pull_request_head_sha := None;
     sha := Str "abc123";
     input_max_timeout := of_Z 9;
     input_site_id := "site";
     input_context := "" |}.


Definition unreachable : error :=
  AxiosError (Str "ENOTFOUND") "getaddrinfo ENOTFOUND xyz--mysite.netlify.app".

(** The list holds the deployment of the commit; the status endpoint
    answers without data; the site does not answer. *)
Definition null_status : network :=
  fun _ r =>
    match r with
    | GET u _ =>
        {| duration := 0;
           result := if String.eqb u list_endpoint
                     then Fulfilled (Array [other_deploy; building_deploy])
                     else Fulfilled JSONNull |}
    | HEAD _ => {| duration := 0; result := Rejected unreachable |}
    end.

Definition preview_url : string := "https://xyz--mysite.netlify.app".

(** The site never answers. *)
Definition never_up : network :=
  fun _ _ => {| duration := 100; result := Rejected unreachable |}.

(** The site answers from the fourth request on. *)
Definition up_at_fourth : network :=
  fun k _ =>
    {| duration := 100;
       result := if Nat.ltb k 3 then Rejected unreachable else Fulfilled Absent |}.

(** ** Further readings of a run *)

Definition is_output (e : event) : bool :=
  match e with SetOutput _ _ => true | _ => false end.

(** The time the network takes over [n] requests [r] sent one after the
    other, the first of them being request number [from] of the run. *)
Fixpoint latency (net : network) (r : request) (from n : nat) : Z :=
  match n with
  | O => 0
  | S n' => duration (net from r) + latency net r (S from) n'
  end.

(** The deployment of the commit is in the list from the fourth request
    on; every request takes 200 milliseconds. *)
Definition match_at_fourth : network :=
  fun k _ =>
    {| duration := 200;
       result := Fulfilled (Array (if Nat.ltb k 3 then [other_deploy]
                                   else [other_deploy; building_deploy])) |}.

(** The status is ["ready"] from the third request on; every request
    takes 200 milliseconds. *)
Definition ready_at_third : network :=
  fun k _ =>
    {| duration := 200;
       result := Fulfilled (Object (if Nat.ltb k 2 then building_deploy
                                    else ready_deploy)) |}.

Definition unauthorized : error :=
  AxiosError (Str "ERR_BAD_REQUEST") "Request failed with status code 401".

(** The provider rejects every request. *)
Definition list_down : network :=
  fun _ _ => {| duration := 150; result := Rejected unauthorized |}.

(** Everything works at the first request. *)
Definition all_good : network :=
  fun _ r =>
    match r with
    | GET u _ =>
        {| duration := 100;
           result := if String.eqb u list_endpoint
                     then Fulfilled (Array [ready_deploy])
                     else Fulfilled (Object ready_deploy) |}
    | HEAD _ => {| duration := 100; result := Fulfilled Absent |}
    end.

(** A pull request event: the head commit is not [github.context.sha]. *)
Definition pull_request_config : config :=
  {| env_NETLIFY_TOKEN := secret;
     eventName := "pull_request";
     pull_request_head_sha := Some (Str "abc123");
     sha := Str "fffffff";
     input_max_timeout := NaN;
     input_site_id := "site";
     input_context := "deploy-preview" |}.

(** The requests a run may send for a configuration: the deployments
    list, the status of a deployment of the site, the preview URL of a
    deployment. *)
Definition run_request (cfg : config) (e : event) : Prop :=
  is_http e = true ->
  e = Http (GET (deploys_url (input_site_id cfg))
              ("Bearer " ++ template (env_NETLIFY_TOKEN cfg)))
  \/ exists d : Deploy.t,
      e = Http (GET (deploys_url (input_site_id cfg) ++ "/"
                       ++ template (Deploy.id d))
                  ("Bearer " ++ template (env_NETLIFY_TOKEN cfg)))
      \/ e = Http (HEAD (deploy_url d)).


(** * Properties *)

Example number_to_string_ex :
  number_to_string (Num (103 # 10)) = "10.3"
  /\ number_to_string (of_Z 300) = "300"
  /\ number_to_string (Num (1 # 10)) = "0.1"
  /\ number_to_string (of_Z 0) = "0".
Proof. repeat split; reflexivity. Qed.

(** ** The elapsed time read without a time stamp *)

Lemma ellapsedSeconds_no_argument (w : world) :
  ellapsedSeconds None w = (Return NaN, w).
Proof. reflexivity. Qed.

Lemma js_gt_NaN (n : number) : js_gt NaN n = false.
Proof. reflexivity. Qed.

(** ** One iteration of the creation waiter *)

Section CreationIteration.

Variable net : network.
Variable tok : value.
Variables (url : string) (commitSha : value) (timeoutSeconds : number)
          (context : string) (startTime : Z).

#[local] Abbreviation auth := ("Bearer " ++ template tok).
#[local] Abbreviation check :=
  (WaitForDeployCreation.checkContinually
     net tok url commitSha timeoutSeconds context startTime).
#[local] Abbreviation matches := (WaitForDeployCreation.matches commitSha context).

Lemma creation_fetch (w : world) (ms : Z) (b : body) :
  net (sent w) (GET url auth) = {| duration := ms; result := Fulfilled b |} ->
  getNetlifyUrl net tok url w = (Return b, requested net (GET url auth) w).
Proof.
  intros Hnet. unfold getNetlifyUrl, axios. now rewrite Hnet.
Qed.

Lemma creation_no_data (fuel : nat) (w : world) (ms : Z) (b : body) :
  net (sent w) (GET url auth) = {| duration := ms; result := Fulfilled b |} ->
  b = Absent \/ b = JSONNull ->
  check (S fuel) w
  = (Throw (Error "Failed to get deployments for site"),
     requested net (GET url auth) w).
Proof.
  intros Hnet Hb. simpl.
  unfold WaitForDeployCreation.getCurrentDeploymentIfCreated, bind.
  rewrite (creation_fetch w ms b Hnet).
  destruct Hb; subst b; reflexivity.
Qed.

Lemma creation_found (fuel : nat) (w : world) (ms : Z) (l : list Deploy.t)
    (d : Deploy.t) :
  net (sent w) (GET url auth)
  = {| duration := ms; result := Fulfilled (Array l) |} ->
  find matches l = Some d ->
  exists s,
    check (S fuel) w
    = (Return d,
       record (Log ("Deployment created (" ++ s ++ "s)") [])
         (requested net (GET url auth) w)).
Proof.
  intros Hnet Hfind. simpl.
  unfold WaitForDeployCreation.getCurrentDeploymentIfCreated, bind.
  rewrite (creation_fetch w ms _ Hnet). simpl.
  rewrite Hfind. simpl.
  eexists. reflexivity.
Qed.

Lemma creation_retry (fuel : nat) (w : world) (ms : Z) (l : list Deploy.t) :
  net (sent w) (GET url auth)
  = {| duration := ms; result := Fulfilled (Array l) |} ->
  find matches l = None ->
  check (S fuel) w
  = check fuel
      (slept 5000
         (record (Log "Deploy not yet created. Trying again in 5 seconds..." [])
            (requested net (GET url auth) w))).
Proof.
  intros Hnet Hfind. simpl.
  unfold WaitForDeployCreation.getCurrentDeploymentIfCreated, bind.
  rewrite (creation_fetch w ms _ Hnet). simpl.
  rewrite Hfind. reflexivity.
Qed.

End CreationIteration.

(** C7: when the deployments list comes back without data ([null] or
    absent), the iteration of the creation waiter that fetched it throws
    the error "Failed to get deployments for site" right after the request:
    nothing is logged, no timer is started, and the outcome is the same for
    every time budget and every start time.  This holds for an iteration
    in the middle of the polling as for the first one. *)
Theorem creation_fetch_failed_immediately
    (net : network) (tok : value) (url : string) (commitSha : value)
    (context : string) (fuel : nat) (w : world) (ms : Z) (b : body) :
  net (sent w) (GET url ("Bearer " ++ template tok))
  = {| duration := ms; result := Fulfilled b |} ->
  b = Absent \/ b = JSONNull ->
  (forall (timeoutSeconds : number) (startTime : Z),
      WaitForDeployCreation.checkContinually
        net tok url commitSha timeoutSeconds context startTime (S fuel) w
      = (Throw (Error "Failed to get deployments for site"),
         requested net (GET url ("Bearer " ++ template tok)) w))
  /\ (forall timeoutSeconds : number,
         waitForDeployCreation
           net tok url commitSha timeoutSeconds context (S fuel) w
         = (Throw (Error "Failed to get deployments for site"),
            requested net (GET url ("Bearer " ++ template tok)) w)).
Proof.
  intros Hnet Hb. split.
  - intros T start. exact (creation_no_data _ _ _ _ T _ start fuel w ms b Hnet Hb).
  - intros T. unfold waitForDeployCreation, bind. simpl.
    exact (creation_no_data _ _ _ _ T _ (clock w) fuel w ms b Hnet Hb).
Qed.

Lemma creation_fetch_failed_immediately_witness :
  waitForDeployCreation no_data secret list_endpoint (Str "abc123")
    (of_Z 300) "" 1 initial
  = (Throw (Error "Failed to get deployments for site"),
     {| clock := 40; sent := 1;
        trace := [Http (GET list_endpoint "Bearer secret")] |}).
Proof.
  apply (creation_fetch_failed_immediately
           no_data secret list_endpoint (Str "abc123") "" 0 initial 40 JSONNull).
  - reflexivity.
  - right. reflexivity.
Defined.

(** The creation waiter keeps polling as long as the list holds no match,
    whatever the clock shows. *)
Lemma creation_polls_on (fuel : nat) :
  forall w : world,
    let r := WaitForDeployCreation.checkContinually
               never_matching secret list_endpoint (Str "abc123") (of_Z 10) ""
               (clock initial) fuel w in
    fst r = Pending
    /\ sent (snd r) = (sent w + fuel)%nat
    /\ clock (snd r) = clock w + 5000 * Z.of_nat fuel
    /\ count is_sleep (trace (snd r)) = (count is_sleep (trace w) + fuel)%nat.
Proof.
  induction fuel as [| fuel IH]; intros w.
  - simpl. repeat split; lia.
  - cbv zeta.
    rewrite (creation_retry never_matching secret list_endpoint (Str "abc123")
               (of_Z 10) "" (clock initial) fuel w 0 [other_deploy]);
      [| reflexivity | reflexivity].
    destruct (IH (slept 5000
                    (record
                       (Log "Deploy not yet created. Trying again in 5 seconds..." [])
                       (requested never_matching
                          (GET list_endpoint ("Bearer " ++ template secret)) w))))
      as (Hp & Hs & Hc & Hn).
    repeat split.
    + exact Hp.
    + rewrite Hs. simpl. lia.
    + rewrite Hc, Nat2Z.inj_succ. unfold slept, record, requested. simpl clock. lia.
    + rewrite Hn. unfold count. simpl. lia.
Qed.

(** C1: with a budget of 10 seconds and a deployments list that never
    matches, the creation waiter never throws its timeout error: however
    many iterations are run it is still polling, one request every five
    seconds, long after 10 seconds have elapsed.  The test of line 29 calls
    [ellapsedSeconds] without the start time, so it compares [NaN] with the
    budget. *)
Theorem creation_timeout_never_fires (fuel : nat) :
  let r := waitForDeployCreation never_matching secret list_endpoint
             (Str "abc123") (of_Z 10) "" fuel initial in
  fst r = Pending
  /\ sent (snd r) = fuel
  /\ clock (snd r) = 5000 * Z.of_nat fuel
  /\ count is_sleep (trace (snd r)) = fuel.
Proof.
  cbv zeta. unfold waitForDeployCreation, bind. simpl.
  exact (creation_polls_on fuel initial).
Qed.

(** ** One iteration of the readiness waiter *)

#[local] Arguments includes : simpl never.

Section ReadinessIteration.

Variable net : network.
Variable tok : value.
Variables (url : string) (timeoutSeconds : number) (startTime : Z).

#[local] Abbreviation rauth := ("Bearer " ++ template tok).
#[local] Abbreviation rcheck :=
  (WaitForReadiness.checkContinually net tok url timeoutSeconds startTime).

Lemma readiness_no_record (fuel : nat) (latest : value) (w : world) (ms : Z)
    (b : body) :
  net (sent w) (GET url rauth) = {| duration := ms; result := Fulfilled b |} ->
  b = Absent \/ b = JSONNull ->
  rcheck (S fuel) latest w
  = (Throw (TypeError ("Cannot read properties of "
                         ++ match b with JSONNull => "null" | _ => "undefined" end
                         ++ " (reading 'state')")),
     requested net (GET url rauth) w).
Proof.
  intros Hnet Hb. simpl.
  unfold WaitForReadiness.isCurrentDeploymentReady, bind, getNetlifyUrl, axios.
  rewrite Hnet. destruct Hb; subst b; reflexivity.
Qed.

Lemma readiness_ready (fuel : nat) (latest : value) (w : world) (ms : Z)
    (d : Deploy.t) :
  net (sent w) (GET url rauth)
  = {| duration := ms; result := Fulfilled (Object d) |} ->
  includes READY_STATES (Deploy.state d) = true ->
  exists s,
    rcheck (S fuel) latest w
    = (Return tt,
       record (Log ("Deployment ready (" ++ s ++ "s)") [])
         (requested net (GET url rauth) w)).
Proof.
  intros Hnet Hready. simpl.
  unfold WaitForReadiness.isCurrentDeploymentReady, bind, getNetlifyUrl, axios.
  rewrite Hnet. simpl. rewrite Hready. simpl. eexists. reflexivity.
Qed.

Lemma readiness_retry (fuel : nat) (latest : value) (w : world) (ms : Z)
    (d : Deploy.t) :
  net (sent w) (GET url rauth)
  = {| duration := ms; result := Fulfilled (Object d) |} ->
  includes READY_STATES (Deploy.state d) = false ->
  rcheck (S fuel) latest w
  = rcheck fuel (Deploy.state d)
      (slept 10000
         (record (Log ("Deploy not yet ready (state = "
                         ++ template (Deploy.state d)
                         ++ "). Trying again in 10 seconds...") [])
            (requested net (GET url rauth) w))).
Proof.
  intros Hnet Hready. simpl.
  unfold WaitForReadiness.isCurrentDeploymentReady, bind, getNetlifyUrl, axios.
  rewrite Hnet. simpl. rewrite Hready. reflexivity.
Qed.

(** When the waiter returns, the last request it made was answered with a
    record in a ready state. *)
Lemma readiness_returns_ready (fuel : nat) :
  forall (latest : value) (w w' : world),
    rcheck fuel latest w = (Return tt, w') ->
    exists ms d,
      net (pred (sent w')) (GET url rauth)
      = {| duration := ms; result := Fulfilled (Object d) |}
      /\ includes READY_STATES (Deploy.state d) = true.
Proof.
  induction fuel as [| fuel IH]; intros latest w w' Hrun.
  - discriminate Hrun.
  - simpl in Hrun.
    unfold WaitForReadiness.isCurrentDeploymentReady, bind, getNetlifyUrl, axios
      in Hrun.
    destruct (net (sent w) (GET url rauth)) as [ms res] eqn:Hnet.
    simpl in Hrun. destruct res as [b | e]; [| discriminate Hrun].
    destruct b as [| | l | d]; simpl in Hrun; try discriminate Hrun.
    + apply IH in Hrun. exact Hrun.
    + destruct (includes READY_STATES (Deploy.state d)) eqn:Hready.
      * simpl in Hrun. injection Hrun as <-. simpl.
        exists ms, d. split; [exact Hnet | exact Hready].
      * simpl in Hrun. apply IH in Hrun. exact Hrun.
Qed.

End ReadinessIteration.

Lemma includes_READY_STATES (v : value) :
  includes READY_STATES v = true <-> v = Str "ready" \/ v = Str "current".
Proof.
  unfold includes, READY_STATES. cbn [existsb]. split.
  - destruct v as [| | s]; cbn [strict_eq]; try discriminate.
    rewrite orb_false_r. intros H. apply orb_true_iff in H.
    destruct H as [H | H]; apply String.eqb_eq in H; subst s; auto.
  - intros [-> | ->]; reflexivity.
Qed.

(** C6: an iteration of the readiness waiter that fetches a deployment
    record returns successfully when the record's status is "ready" or
    "current", and for every other status it does not return: it logs,
    waits 10 seconds and runs the next iteration.  Conversely the waiter
    only ever returns after a request answered with a record whose status
    is in the ready-state set. *)
Theorem readiness_returns_iff_ready
    (net : network) (tok : value) (url : string) (timeoutSeconds : number)
    (startTime : Z) (fuel : nat) (latest : value) (w : world) (ms : Z)
    (d : Deploy.t) :
  net (sent w) (GET url ("Bearer " ++ template tok))
  = {| duration := ms; result := Fulfilled (Object d) |} ->
  (includes READY_STATES (Deploy.state d) = true
   <-> Deploy.state d = Str "ready" \/ Deploy.state d = Str "current")
  /\ (includes READY_STATES (Deploy.state d) = true ->
      exists s,
        WaitForReadiness.checkContinually
          net tok url timeoutSeconds startTime (S fuel) latest w
        = (Return tt,
           record (Log ("Deployment ready (" ++ s ++ "s)") [])
             (requested net (GET url ("Bearer " ++ template tok)) w)))
  /\ (includes READY_STATES (Deploy.state d) = false ->
      WaitForReadiness.checkContinually
        net tok url timeoutSeconds startTime (S fuel) latest w
      = WaitForReadiness.checkContinually
          net tok url timeoutSeconds startTime fuel (Deploy.state d)
          (slept 10000
             (record (Log ("Deploy not yet ready (state = "
                             ++ template (Deploy.state d)
                             ++ "). Trying again in 10 seconds...") [])
                (requested net (GET url ("Bearer " ++ template tok)) w))))
  /\ (forall (n : nat) (w0 w' : world),
         waitForReadiness net tok url timeoutSeconds n w0 = (Return tt, w') ->
         exists ms' d',
           net (pred (sent w')) (GET url ("Bearer " ++ template tok))
           = {| duration := ms'; result := Fulfilled (Object d') |}
           /\ includes READY_STATES (Deploy.state d') = true).
Proof.
  intros Hnet. split; [| split; [| split]].
  - apply includes_READY_STATES.
  - intros Hready. exact (readiness_ready _ _ _ _ _ fuel latest w ms d Hnet Hready).
  - intros Hnot. exact (readiness_retry _ _ _ _ _ fuel latest w ms d Hnet Hnot).
  - intros n w0 w' Hrun. unfold waitForReadiness, bind in Hrun. simpl in Hrun.
    exact (readiness_returns_ready _ _ _ _ _ n _ w0 w' Hrun).
Qed.

Lemma readiness_returns_iff_ready_witness :
  waitForReadiness building_then_ready secret status_endpoint (of_Z 900) 2
    initial
  = (Return tt,
     {| clock := 10000; sent := 2;
        trace := [Log "Deployment ready (10s)" [];
                  Http (GET status_endpoint "Bearer secret");
                  Sleep 10000;
                  Log "Deploy not yet ready (state = building). Trying again in 10 seconds..." [];
                  Http (GET status_endpoint "Bearer secret")] |}).
Proof.
  destruct (readiness_returns_iff_ready
              building_then_ready secret status_endpoint (of_Z 900) 0 1
              (Str "(unknown)") initial 0 building_deploy eq_refl)
    as (_ & _ & Hretry & _).
  change (waitForReadiness building_then_ready secret status_endpoint
            (of_Z 900) 2 initial)
    with (WaitForReadiness.checkContinually
            building_then_ready secret status_endpoint (of_Z 900) 0 2
            (Str "(unknown)") initial).
  rewrite (Hretry eq_refl). reflexivity.
Defined.

(** The readiness waiter keeps polling as long as the status is not in
    the ready-state set, whatever the clock shows. *)
Lemma readiness_polls_on (fuel : nat) :
  forall (latest : value) (w : world),
    let r := WaitForReadiness.checkContinually
               always_error secret status_endpoint (of_Z 5) (clock initial)
               fuel latest w in
    fst r = Pending
    /\ sent (snd r) = (sent w + fuel)%nat
    /\ clock (snd r) = clock w + 10000 * Z.of_nat fuel
    /\ count is_sleep (trace (snd r)) = (count is_sleep (trace w) + fuel)%nat.
Proof.
  induction fuel as [| fuel IH]; intros latest w.
  - simpl. repeat split; lia.
  - cbv zeta.
    rewrite (readiness_retry always_error secret status_endpoint (of_Z 5)
               (clock initial) fuel latest w 0 failed_deploy);
      [| reflexivity | reflexivity].
    match goal with
    | |- context [WaitForReadiness.checkContinually _ _ _ _ _ _ ?l ?w0] =>
        destruct (IH l w0) as (Hp & Hs & Hc & Hn)
    end.
    repeat split.
    + exact Hp.
    + rewrite Hs. simpl. lia.
    + rewrite Hc, Nat2Z.inj_succ. unfold slept, record, requested. simpl clock. lia.
    + rewrite Hn. unfold count. simpl. lia.
Qed.

(** C2: with a budget of 5 seconds and a status that is always "error",
    the readiness waiter never throws its timeout error: however many
    iterations are run it is still polling, one request every ten seconds.
    The test of line 69 calls [ellapsedSeconds] without the start time, so
    it compares [NaN] with the budget, and the message of line 71 is never
    built. *)
Theorem readiness_timeout_never_fires (fuel : nat) :
  let r := waitForReadiness always_error secret status_endpoint (of_Z 5)
             fuel initial in
  fst r = Pending
  /\ sent (snd r) = fuel
  /\ clock (snd r) = 10000 * Z.of_nat fuel
  /\ count is_sleep (trace (snd r)) = fuel.
Proof.
  cbv zeta. unfold waitForReadiness, bind. simpl.
  exact (readiness_polls_on fuel (Str "(unknown)") initial).
Qed.

(** ** What a computation adds to the trace *)

Create HintDb effects.

Section Effects.

Variable P : event -> Prop.

Lemma emits_only_ret {A} (a : A) : emits_only P (ret a).
Proof. intros w. exists []. split; [reflexivity | constructor]. Qed.

Lemma emits_only_throw {A} (e : error) : emits_only P (@throw A e).
Proof. intros w. exists []. split; [reflexivity | constructor]. Qed.

Lemma emits_only_pending {A} : emits_only P (@pending A).
Proof. intros w. exists []. split; [reflexivity | constructor]. Qed.

Lemma emits_only_Date_now : emits_only P Date_now.
Proof. intros w. exists []. split; [reflexivity | constructor]. Qed.

Lemma emits_only_emit (e : event) : P e -> emits_only P (emit e).
Proof. intros He w. exists [e]. split; [reflexivity | now constructor]. Qed.

Lemma emits_only_setTimeout (ms : Z) : P (Sleep ms) -> emits_only P (setTimeout ms).
Proof. intros He w. exists [Sleep ms]. split; [reflexivity | now constructor]. Qed.

Lemma emits_only_axios (net : network) (r : request) :
  P (Http r) -> emits_only P (axios net r).
Proof.
  intros He w. exists [Http r]. unfold axios.
  destruct (result (net (sent w) r)); (split; [reflexivity | now constructor]).
Qed.

Lemma emits_only_bind {A B} (m : M A) (k : A -> M B) :
  emits_only P m -> (forall a, emits_only P (k a)) -> emits_only P (bind m k).
Proof.
  intros Hm Hk w. unfold bind. destruct (Hm w) as (new & Hnew & HP).
  destruct (m w) as [[a | e |] w1]; simpl in Hnew.
  - destruct (Hk a w1) as (new' & Hnew' & HP').
    exists (new' ++ new)%list. rewrite Hnew', Hnew, app_assoc.
    split; [reflexivity | now apply Forall_app].
  - exists new. now split.
  - exists new. now split.
Qed.

Lemma emits_only_try_catch {A} (m : M A) (h : error -> M A) :
  emits_only P m -> (forall e, emits_only P (h e)) -> emits_only P (try_catch m h).
Proof.
  intros Hm Hh w. unfold try_catch. destruct (Hm w) as (new & Hnew & HP).
  destruct (m w) as [[a | e |] w1]; simpl in Hnew.
  - exists new. now split.
  - destruct (Hh e w1) as (new' & Hnew' & HP').
    exists (new' ++ new)%list. rewrite Hnew', Hnew, app_assoc.
    split; [reflexivity | now apply Forall_app].
  - exists new. now split.
Qed.

Lemma emits_only_attempt {A} (m : M A) :
  emits_only P m -> emits_only P (attempt m).
Proof.
  intros Hm w. unfold attempt. destruct (Hm w) as (new & Hnew & HP).
  destruct (m w) as [[a | e |] w1]; simpl in Hnew; exists new; now split.
Qed.

Lemma emits_only_ellapsedSeconds (t : option number) :
  emits_only P (ellapsedSeconds t).
Proof. intros w. exists []. split; [reflexivity | constructor]. Qed.

Lemma emits_only_when (b : bool) (m : M unit) :
  emits_only P m -> emits_only P (when b m).
Proof. intros Hm. destruct b; [exact Hm | apply emits_only_ret]. Qed.

End Effects.

#[export] Hint Resolve emits_only_ret emits_only_throw emits_only_pending
  emits_only_Date_now emits_only_emit emits_only_setTimeout emits_only_axios
  emits_only_bind emits_only_try_catch emits_only_attempt
  emits_only_ellapsedSeconds emits_only_when : effects.

Lemma any_event_holds (e : event) : any_event e.
Proof. exact I. Qed.

Lemma requests_only_log (r : request) (msg : string) (obj : list (string * value)) :
  requests_only r (Log msg obj).
Proof. intros H. discriminate H. Qed.

Lemma requests_only_sleep (r : request) (ms : Z) : requests_only r (Sleep ms).
Proof. intros H. discriminate H. Qed.

Lemma requests_only_setFailed (r : request) (msg : string) :
  requests_only r (SetFailed msg).
Proof. intros H. discriminate H. Qed.

Lemma requests_only_http (r : request) : requests_only r (Http r).
Proof. intros _. reflexivity. Qed.

#[export] Hint Resolve any_event_holds requests_only_log requests_only_sleep
  requests_only_setFailed requests_only_http : effects.

Lemma emits_only_weaken {A} (P Q : event -> Prop) (m : M A) :
  (forall e, P e -> Q e) -> emits_only P m -> emits_only Q m.
Proof.
  intros HPQ Hm w. destruct (Hm w) as (new & Hnew & HP).
  exists new. split; [exact Hnew |]. eapply Forall_impl; eauto.
Qed.

Lemma bind_emit {B} (e : event) (k : unit -> M B) (w : world) :
  bind (emit e) k w = k tt (record e w).
Proof. reflexivity. Qed.

Lemma reached_refl (w : world) : reached (trace w) w.
Proof. now exists []. Qed.

Lemma reached_step {A} (t : list event) (m : M A) (w : world) :
  emits_only any_event m -> reached t w -> reached t (snd (m w)).
Proof.
  intros Hm (later & Hw). destruct (Hm w) as (new & Hnew & _).
  exists (new ++ later)%list. now rewrite Hnew, Hw, app_assoc.
Qed.


Lemma reached_try_catch {A} (t : list event) (m : M A) (h : error -> M A)
    (w : world) :
  reached t (snd (m w)) -> (forall e, emits_only any_event (h e)) ->
  reached t (snd (try_catch m h w)).
Proof.
  intros Hm Hh. unfold try_catch. destruct (m w) as [[a | e |] w1]; simpl in *; auto.
  now apply reached_step.
Qed.

(** ** The effects of the three waiters *)

Lemma creation_effects (P : event -> Prop) (net : network) (tok : value)
    (url : string) (commitSha : value) (timeoutSeconds : number)
    (context : string) (startTime : Z) (fuel : nat) :
  P (Http (GET url ("Bearer " ++ template tok))) ->
  (forall msg, P (Log msg [])) ->
  (forall ms, P (Sleep ms)) ->
  emits_only P
    (WaitForDeployCreation.checkContinually
       net tok url commitSha timeoutSeconds context startTime fuel).
Proof.
  intros Hreq Hlog Hsleep.
  induction fuel as [| fuel IH]; simpl.
  - auto with effects.
  - apply emits_only_bind.
    + unfold WaitForDeployCreation.getCurrentDeploymentIfCreated, getNetlifyUrl.
      apply emits_only_bind; [auto with effects |].
      intros [| | l | d]; auto with effects.
    + intros [d |].
      * unfold console_log. auto 6 with effects.
      * apply emits_only_bind; [auto with effects |].
        intros s. destruct (js_gt s timeoutSeconds); [auto with effects |].
        unfold console_log, waitForSeconds. auto 6 with effects.
Qed.

Lemma readiness_effects (P : event -> Prop) (net : network) (tok : value)
    (url : string) (timeoutSeconds : number) (startTime : Z) (fuel : nat) :
  P (Http (GET url ("Bearer " ++ template tok))) ->
  (forall msg, P (Log msg [])) ->
  (forall ms, P (Sleep ms)) ->
  forall latest : value,
    emits_only P
      (WaitForReadiness.checkContinually
         net tok url timeoutSeconds startTime fuel latest).
Proof.
  intros Hreq Hlog Hsleep.
  induction fuel as [| fuel IH]; intros latest; simpl.
  - auto with effects.
  - apply emits_only_bind.
    + unfold WaitForReadiness.isCurrentDeploymentReady, getNetlifyUrl.
      apply emits_only_bind; [auto with effects |].
      intros [| | l | d]; auto with effects.
    + intros [latest' [|]].
      * unfold console_log. auto 6 with effects.
      * apply emits_only_bind; [auto with effects |].
        intros s. destruct (js_gt s timeoutSeconds); [auto with effects |].
        unfold console_log, waitForSeconds. auto 6 with effects.
Qed.

Lemma waitForUrl_loop_effects (P : event -> Prop) (net : network)
    (url : string) (iterations : number) (fuel : nat) :
  P (Http (HEAD url)) ->
  (forall msg obj, P (Log msg obj)) ->
  (forall ms, P (Sleep ms)) ->
  forall i : Z, emits_only P (waitForUrl_loop net url iterations fuel i).
Proof.
  intros Hreq Hlog Hsleep.
  induction fuel as [| fuel IH]; intros i; simpl;
    destruct (js_lt (of_Z i) iterations); auto with effects.
  apply emits_only_bind.
  - unfold axios_head. auto with effects.
  - intros [e | b]; [| auto with effects].
    unfold console_log_obj. auto 6 with effects.
Qed.

Lemma waitForReadiness_effects (net : network) (tok : value) (url : string)
    (timeoutSeconds : number) (fuel : nat) :
  emits_only any_event (waitForReadiness net tok url timeoutSeconds fuel).
Proof.
  unfold waitForReadiness. apply emits_only_bind; [auto with effects |].
  intros start. apply readiness_effects; auto with effects.
Qed.

Lemma waitForUrl_effects (net : network) (url : string)
    (timeoutSeconds : number) (fuel : nat) :
  emits_only any_event (waitForUrl net url timeoutSeconds fuel).
Proof.
  unfold waitForUrl. apply emits_only_bind.
  - apply waitForUrl_loop_effects; auto with effects.
  - intros [|]; unfold core_setFailed; auto with effects.
Qed.

(** ** The orchestrator *)

Section Orchestrator.

Variable net : network.
Variable cfg : config.

#[local] Abbreviation token := (env_NETLIFY_TOKEN cfg).
#[local] Abbreviation siteId := (input_site_id cfg).
#[local] Abbreviation list_request :=
  (GET (deploys_url siteId) ("Bearer " ++ template token)).


Lemma run_handler_effects (e : error) :
  emits_only any_event (core_setFailed (message e)).
Proof. unfold core_setFailed. auto with effects. Qed.

(** Phase 1 sends no request but the one for the deployments list. *)
Lemma run_phase1_effects (fuel : nat) :
  emits_only (requests_only list_request) (run_phase1 net cfg fuel).
Proof.
  unfold run_phase1, core_setFailed, console_log.
  apply emits_only_bind.
  - unfold resolve_commitSha.
    destruct (eventName cfg =? "pull_request")%string; [| auto with effects].
    destruct (pull_request_head_sha cfg); auto with effects.
  - intros commitSha.
    do 4 (apply emits_only_bind; [auto with effects | intros ?]).
    unfold waitForDeployCreation.
    apply emits_only_bind; [auto with effects | intros start].
    apply creation_effects; auto with effects.
Qed.

(** Once phase 1 has returned, [run] continues with the rest of the [try]
    block in the world phase 1 left. *)
Lemma run_after_phase1 (fuel : nat) (w w1 : world) (d : Deploy.t) :
  run_phase1 net cfg fuel w = (Return d, w1) ->
  run net cfg fuel w
  = try_catch (run_phase23 net cfg fuel d)
      (fun error => core_setFailed (message error)) w1.
Proof.
  intros H1. unfold run, try_catch, bind. now rewrite H1.
Qed.

End Orchestrator.

(** C8: when phase 1 returns the deployment [d], the next two effects of
    the run are the outputs [deploy_id], the identifier of [d], and [url],
    the string [https://{id}--{name}.netlify.app] with nothing after it.
    Phase 1 itself has sent no request but the one for the deployments
    list, so the requests of phases 2 and 3 all come after the outputs;
    and the outputs are in the trace of the run whatever happens later,
    also when a later phase throws and the run ends with a failure. *)
Theorem outputs_published_after_phase1
    (net : network) (cfg : config) (fuel : nat) (w w1 : world) (d : Deploy.t) :
  run_phase1 net cfg fuel w = (Return d, w1) ->
  (exists before,
      trace w1 = (before ++ trace w)%list
      /\ Forall (requests_only
                   (GET (deploys_url (input_site_id cfg))
                      ("Bearer " ++ template (env_NETLIFY_TOKEN cfg))))
           before)
  /\ reached
       (SetOutput "url"
          (Str ("https://" ++ template (Deploy.id d) ++ "--"
                  ++ template (Deploy.name d) ++ ".netlify.app"))
          :: SetOutput "deploy_id" (Deploy.id d) :: trace w1)
       (snd (run net cfg fuel w)).
Proof.
  intros H1. split.
  - destruct (run_phase1_effects net cfg fuel w) as (before & Hb & HP).
    rewrite H1 in Hb. exists before. now split.
  - rewrite (run_after_phase1 net cfg fuel w w1 d H1).
    apply reached_try_catch; [| apply run_handler_effects].
    unfold run_phase23, core_setOutput. rewrite !bind_emit.
    match goal with
    | |- reached _ (snd (?m ?w0)) => apply (reached_step _ m w0)
    end.
    + unfold console_log.
      apply emits_only_bind; [auto with effects | intros _].
      apply emits_only_bind; [apply waitForReadiness_effects | intros _].
      apply emits_only_bind; [auto with effects | intros _].
      apply waitForUrl_effects.
    + apply reached_refl.
Qed.

Lemma outputs_published_after_phase1_witness :
  reached
    [SetOutput "url" (Str "https://xyz--mysite.netlify.app");
     SetOutput "deploy_id" (Str "xyz");
     Log "Deployment created (0s)" [];
     Http (GET list_endpoint "Bearer secret");
     Log "Waiting for Netlify to create a deployment for git SHA abc123" []]
    (snd (run null_status push_config 1 initial)).
Proof.
  exact (proj2 (outputs_published_after_phase1
                  null_status push_config 1 initial
                  (snd (run_phase1 null_status push_config 1 initial))
                  building_deploy eq_refl)).
Defined.

(** C10: when the status request of the readiness waiter is answered
    without data ([null] or absent), the iteration throws the TypeError of
    reading [state] from a missing record, right after the request; there
    is no guard like the one of the creation waiter.  In a run, the error
    is caught at the top level and its raw message is what the run reports
    as its failure, which is not the "Failed to get deployments for site"
    of the creation waiter. *)
Theorem readiness_missing_record_throws_TypeError
    (net : network) (tok : value) (url : string) (w : world) (ms : Z)
    (b : body) :
  net (sent w) (GET url ("Bearer " ++ template tok))
  = {| duration := ms; result := Fulfilled b |} ->
  b = Absent \/ b = JSONNull ->
  let msg := "Cannot read properties of "
               ++ match b with JSONNull => "null" | _ => "undefined" end
               ++ " (reading 'state')" in
  (forall (timeoutSeconds : number) (startTime : Z) (fuel : nat)
          (latest : value),
      WaitForReadiness.checkContinually
        net tok url timeoutSeconds startTime (S fuel) latest w
      = (Throw (TypeError msg),
         requested net (GET url ("Bearer " ++ template tok)) w))
  /\ msg <> "Failed to get deployments for site"
  /\ (forall (cfg : config) (fuel : nat) (w0 w1 : world) (d : Deploy.t),
         run_phase1 net cfg (S fuel) w0 = (Return d, w1) ->
         tok = env_NETLIFY_TOKEN cfg ->
         url = deploys_url (input_site_id cfg) ++ "/" ++ template (Deploy.id d) ->
         w = record
               (Log ("Waiting for Netlify deployment "
                       ++ template (Deploy.id d) ++ " in site "
                       ++ template (Deploy.name d) ++ " to be ready") [])
               (record (SetOutput "url" (Str (deploy_url d)))
                  (record (SetOutput "deploy_id" (Deploy.id d)) w1)) ->
         run net cfg (S fuel) w0
         = (Return tt,
            record (SetFailed msg)
              (requested net (GET url ("Bearer " ++ template tok)) w))).
Proof.
  intros Hnet Hb msg. split; [| split].
  - intros T start fuel latest.
    exact (readiness_no_record net tok url T start fuel latest w ms b Hnet Hb).
  - destruct Hb; subst b; discriminate.
  - intros cfg fuel w0 w1 d H1 Htok Hurl Hw.
    rewrite (run_after_phase1 net cfg (S fuel) w0 w1 d H1).
    unfold run_phase23, core_setOutput, console_log, try_catch.
    rewrite !bind_emit. rewrite <- Hurl, <- Htok, <- Hw.
    unfold waitForReadiness. unfold bind at 1 2.
    change (Date_now w) with (Return (clock w), w). cbv beta iota.
    rewrite (readiness_no_record net tok url MAX_WAIT_TIMEOUT (clock w) fuel
               (Str "(unknown)") w ms b Hnet Hb).
    reflexivity.
Qed.

Lemma readiness_missing_record_throws_TypeError_witness :
  run null_status push_config 1 initial
  = (Return tt,
     {| clock := 0; sent := 2;
        trace :=
          [SetFailed "Cannot read properties of null (reading 'state')";
           Http (GET status_endpoint "Bearer secret");
           Log "Waiting for Netlify deployment xyz in site mysite to be ready" [];
           SetOutput "url" (Str "https://xyz--mysite.netlify.app");
           SetOutput "deploy_id" (Str "xyz");
           Log "Deployment created (0s)" [];
           Http (GET list_endpoint "Bearer secret");
           Log "Waiting for Netlify to create a deployment for git SHA abc123" []]
     |}).
Proof.
  pose proof (readiness_missing_record_throws_TypeError
                null_status secret status_endpoint
                (record
                   (Log "Waiting for Netlify deployment xyz in site mysite to be ready" [])
                   (record (SetOutput "url" (Str "https://xyz--mysite.netlify.app"))
                      (record (SetOutput "deploy_id" (Str "xyz"))
                         (snd (run_phase1 null_status push_config 1 initial)))))
                0 JSONNull eq_refl (or_intror eq_refl)) as H.
  cbv zeta in H. destruct H as (_ & _ & Hrun).
  rewrite (Hrun push_config 0%nat initial
             (snd (run_phase1 null_status push_config 1 initial))
             building_deploy eq_refl eq_refl eq_refl eq_refl).
  reflexivity.
Defined.

(** ** Missing configuration *)


(** Phase 1 after the checks of lines 120-130: the failures reported for
    the configuration are in the trace, the most recent first, when the
    creation waiter starts. *)
Lemma run_phase1_after_checks (net : network) (cfg : config) (fuel : nat)
    (w : world) (commitSha : value) :
  resolve_commitSha cfg w = (Return commitSha, w) ->
  exists msg,
    run_phase1 net cfg fuel w
    = waitForDeployCreation net (env_NETLIFY_TOKEN cfg)
        (deploys_url (input_site_id cfg)) commitSha MAX_CREATE_TIMEOUT
        (input_context cfg) fuel
        {| clock := clock w;
           sent := sent w;
           trace :=
             Log msg []
               :: ((if (input_site_id cfg =? "")%string
                    then [SetFailed "Required field `site_id` was not provided"]
                    else [])
                     ++ (if falsy commitSha
                         then [SetFailed "Could not determine GitHub commit"]
                         else [])
                     ++ (if falsy (env_NETLIFY_TOKEN cfg)
                         then [SetFailed "Please set NETLIFY_TOKEN env variable to your Netlify Personal Access Token secret"]
                         else [])
                     ++ trace w)%list |}.
Proof.
  intros Hres. eexists. unfold run_phase1. unfold bind at 1. rewrite Hres.
  destruct (input_site_id cfg =? "")%string, (falsy commitSha),
    (falsy (env_NETLIFY_TOKEN cfg)); reflexivity.
Qed.






(** ** The loop of the URL waiter *)

Section UrlLoop.

Variable net : network.
Variables (url : string) (iterations : number).

#[local] Abbreviation loop := (waitForUrl_loop net url iterations).

Lemma loop_condition_false (fuel : nat) (i : Z) (w : world) :
  js_lt (of_Z i) iterations = false -> loop fuel i w = (Return false, w).
Proof. intros Hc. destruct fuel; simpl; now rewrite Hc. Qed.

Lemma loop_attempt_fulfilled (fuel : nat) (i : Z) (w : world) :
  js_lt (of_Z i) iterations = true ->
  rejected (result (net (sent w) (HEAD url))) = false ->
  loop (S fuel) i w = (Return true, requested net (HEAD url) w).
Proof.
  intros Hc Hr. simpl. rewrite Hc.
  unfold bind, attempt, axios_head, axios.
  destruct (result (net (sent w) (HEAD url))); [reflexivity | discriminate Hr].
Qed.

Lemma loop_attempt_rejected (fuel : nat) (i : Z) (w : world) :
  js_lt (of_Z i) iterations = true ->
  rejected (result (net (sent w) (HEAD url))) = true ->
  exists e,
    result (net (sent w) (HEAD url)) = Rejected e
    /\ loop (S fuel) i w
       = loop fuel (i + 1)
           (slept 3000
              (record
                 (Log ("URL " ++ url ++ " unavailable, retrying..." ++ newline_tab)
                    [("errorCode", code e); ("errorMessage", Str (message e))])
                 (requested net (HEAD url) w))).
Proof.
  intros Hc Hr. simpl. rewrite Hc.
  unfold bind, attempt, axios_head, axios.
  destruct (result (net (sent w) (HEAD url))) as [b | e]; [discriminate Hr |].
  exists e. split; reflexivity.
Qed.

(** [n] rejected attempts, after which the condition of the loop fails. *)
Lemma loop_exhausted (n : nat) :
  forall (fuel : nat) (i : Z) (w : world),
    (n <= fuel)%nat ->
    (forall j, (j < n)%nat ->
               rejected (result (net (sent w + j)%nat (HEAD url))) = true) ->
    (forall j, (j < n)%nat -> js_lt (of_Z (i + Z.of_nat j)) iterations = true) ->
    js_lt (of_Z (i + Z.of_nat n)) iterations = false ->
    exists w',
      loop fuel i w = (Return false, w')
      /\ sent w' = (sent w + n)%nat
      /\ count is_head (trace w') = (count is_head (trace w) + n)%nat
      /\ count is_http (trace w') = (count is_http (trace w) + n)%nat
      /\ count is_failed (trace w') = count is_failed (trace w).
Proof.
  induction n as [| n IH]; intros fuel i w Hfuel Hrej Hlt Hstop.
  - exists w. rewrite Z.add_0_r in Hstop.
    rewrite (loop_condition_false fuel i w Hstop).
    repeat split; lia.
  - destruct fuel as [| fuel]; [lia |].
    destruct (loop_attempt_rejected fuel i w) as (e & _ & Hstep).
    + specialize (Hlt 0%nat). rewrite Z.add_0_r in Hlt. apply Hlt. lia.
    + specialize (Hrej 0%nat). rewrite Nat.add_0_r in Hrej. apply Hrej. lia.
    + rewrite Hstep.
      match goal with
      | |- context [loop fuel (i + 1) ?w1] =>
          destruct (IH fuel (i + 1) w1) as (w' & Hrun & Hs & Hh & Hq & Hf)
      end.
      * lia.
      * intros j Hj. simpl sent.
        replace (S (sent w) + j)%nat with (sent w + S j)%nat by lia.
        apply Hrej. lia.
      * intros j Hj.
        replace (i + 1 + Z.of_nat j) with (i + Z.of_nat (S j)) by lia.
        apply Hlt. lia.
      * replace (i + 1 + Z.of_nat n) with (i + Z.of_nat (S n)) by lia.
        exact Hstop.
      * exists w'. split; [exact Hrun |].
        simpl in Hs, Hh, Hq, Hf. unfold count in *. simpl in Hh, Hq, Hf.
        repeat split; lia.
Qed.

(** [n] rejected attempts and then a fulfilled one. *)
Lemma loop_returns (n : nat) :
  forall (fuel : nat) (i : Z) (w : world),
    (n < fuel)%nat ->
    (forall j, (j < n)%nat ->
               rejected (result (net (sent w + j)%nat (HEAD url))) = true) ->
    rejected (result (net (sent w + n)%nat (HEAD url))) = false ->
    (forall j, (j <= n)%nat -> js_lt (of_Z (i + Z.of_nat j)) iterations = true) ->
    exists w1,
      loop fuel i w = (Return true, requested net (HEAD url) w1)
      /\ sent w1 = (sent w + n)%nat
      /\ count is_head (trace w1) = (count is_head (trace w) + n)%nat
      /\ count is_failed (trace w1) = count is_failed (trace w).
Proof.
  induction n as [| n IH]; intros fuel i w Hfuel Hrej Hok Hlt.
  - destruct fuel as [| fuel]; [lia |].
    exists w. rewrite Nat.add_0_r in Hok.
    rewrite (loop_attempt_fulfilled fuel i w); [| | exact Hok].
    + repeat split; lia.
    + specialize (Hlt 0%nat). rewrite Z.add_0_r in Hlt. apply Hlt. lia.
  - destruct fuel as [| fuel]; [lia |].
    destruct (loop_attempt_rejected fuel i w) as (e & _ & Hstep).
    + specialize (Hlt 0%nat). rewrite Z.add_0_r in Hlt. apply Hlt. lia.
    + specialize (Hrej 0%nat). rewrite Nat.add_0_r in Hrej. apply Hrej. lia.
    + rewrite Hstep.
      match goal with
      | |- context [loop fuel (i + 1) ?w1] =>
          destruct (IH fuel (i + 1) w1) as (w' & Hrun & Hs & Hh & Hf)
      end.
      * lia.
      * intros j Hj. simpl sent.
        replace (S (sent w) + j)%nat with (sent w + S j)%nat by lia.
        apply Hrej. lia.
      * simpl sent.
        replace (S (sent w) + n)%nat with (sent w + S n)%nat by lia.
        exact Hok.
      * intros j Hj.
        replace (i + 1 + Z.of_nat j) with (i + Z.of_nat (S j)) by lia.
        apply Hlt. lia.
      * exists w'. split; [exact Hrun |].
        simpl in Hs, Hh, Hf. unfold count in *. simpl in Hh, Hf.
        repeat split; lia.
Qed.

End UrlLoop.

(** ** The number of attempts of the URL waiter *)

Lemma js_lt_of_Z (i : Z) (q : Q) :
  js_lt (of_Z i) (Num q) = true <-> (inject_Z i < q)%Q.
Proof.
  unfold js_lt, js_gt, of_Z. rewrite negb_true_iff. split.
  - intros H. apply Qnot_le_lt. intros Hle.
    apply Qle_bool_iff in Hle. congruence.
  - intros H. destruct (Qle_bool q (inject_Z i)) eqn:E; [| reflexivity].
    apply Qle_bool_iff in E. exfalso. exact (Qlt_not_le _ _ H E).
Qed.

Lemma lt_Qceiling (i : Z) (q : Q) : (inject_Z i < q)%Q <-> i < Qceiling q.
Proof.
  split.
  - intros H. rewrite Zlt_Qlt.
    eapply Qlt_le_trans; [exact H | apply Qle_ceiling].
  - intros H.
    eapply Qle_lt_trans; [| apply Qceiling_lt].
    rewrite <- Zle_Qle. lia.
Qed.

Lemma loop_condition (i : Z) (b : Q) :
  js_lt (of_Z i) (js_div (Num b) (of_Z 3)) = true <-> i < Qceiling (b / 3).
Proof.
  change (js_div (Num b) (of_Z 3)) with (Num (b / 3)).
  rewrite js_lt_of_Z. apply lt_Qceiling.
Qed.

(** With every attempt rejected, the waiter makes as many attempts as
    there are integers from zero below [b / 3], and then reports. *)
Lemma waitForUrl_exhausted (net : network) (url : string) (b : Q)
    (fuel : nat) (w : world) :
  (Z.to_nat (Qceiling (b / 3)) <= fuel)%nat ->
  (forall j, (j < Z.to_nat (Qceiling (b / 3)))%nat ->
             rejected (result (net (sent w + j)%nat (HEAD url))) = true) ->
  exists w',
    waitForUrl net url (Num b) fuel w
    = (Return tt,
       record (SetFailed ("Timeout reached: Unable to connect to " ++ url)) w')
    /\ sent w' = (sent w + Z.to_nat (Qceiling (b / 3)))%nat
    /\ count is_head (trace w')
       = (count is_head (trace w) + Z.to_nat (Qceiling (b / 3)))%nat
    /\ count is_http (trace w')
       = (count is_http (trace w) + Z.to_nat (Qceiling (b / 3)))%nat
    /\ count is_failed (trace w') = count is_failed (trace w).
Proof.
  intros Hfuel Hrej.
  destruct (loop_exhausted net url (js_div (Num b) (of_Z 3))
              (Z.to_nat (Qceiling (b / 3))) fuel 0 w Hfuel Hrej)
    as (w' & Hrun & Hrest).
  - intros j Hj. apply loop_condition. lia.
  - destruct (js_lt (of_Z (0 + Z.of_nat (Z.to_nat (Qceiling (b / 3)))))
                (js_div (Num b) (of_Z 3))) eqn:E; [| reflexivity].
    apply loop_condition in E. lia.
  - exists w'. split; [| exact Hrest].
    unfold waitForUrl, bind. cbv zeta. rewrite Hrun. reflexivity.
Qed.

(** C9: the loop of the URL waiter compares its counter with the exact
    quotient [b / 3], which is not rounded down; so when every attempt is
    rejected, a positive budget of [b] seconds gives the ceiling of
    [b / 3] attempts (at least one), after which the waiter reports that
    it was unable to connect. *)
Theorem waitForUrl_attempts_ceiling
    (net : network) (url : string) (b : Q) (fuel : nat) (w : world) :
  (0 < b)%Q ->
  (Z.to_nat (Qceiling (b / 3)) <= fuel)%nat ->
  (forall j, (j < Z.to_nat (Qceiling (b / 3)))%nat ->
             rejected (result (net (sent w + j)%nat (HEAD url))) = true) ->
  (forall i : Z,
      js_lt (of_Z i) (js_div (Num b) (of_Z 3)) = true
      <-> (inject_Z i < b / 3)%Q)
  /\ (1 <= Z.to_nat (Qceiling (b / 3)))%nat
  /\ exists w',
      waitForUrl net url (Num b) fuel w
      = (Return tt,
         record (SetFailed ("Timeout reached: Unable to connect to " ++ url)) w')
      /\ count is_head (trace w')
         = (count is_head (trace w) + Z.to_nat (Qceiling (b / 3)))%nat
      /\ count is_http (trace w')
         = (count is_http (trace w) + Z.to_nat (Qceiling (b / 3)))%nat.
Proof.
  intros Hpos Hfuel Hrej. split; [| split].
  - intros i. change (js_div (Num b) (of_Z 3)) with (Num (b / 3)).
    apply js_lt_of_Z.
  - assert (H : 0 < Qceiling (b / 3)).
    { apply lt_Qceiling. apply Qlt_shift_div_l; [reflexivity |].
      now rewrite Qmult_0_l. }
    lia.
  - destruct (waitForUrl_exhausted net url b fuel w Hfuel Hrej)
      as (w' & Hrun & _ & Hh & Hq & _).
    exists w'. now repeat split.
Qed.

Lemma waitForUrl_attempts_ceiling_witness :
  exists w',
    waitForUrl never_up preview_url (Num 10) 4 initial
    = (Return tt,
       record (SetFailed ("Timeout reached: Unable to connect to " ++ preview_url))
         w')
    /\ count is_head (trace w') = 4%nat
    /\ count is_http (trace w') = 4%nat.
Proof.
  destruct (waitForUrl_attempts_ceiling never_up preview_url 10 4 initial)
    as (_ & _ & w' & Hrun & Hh & Hq).
  - reflexivity.
  - apply le_n.
  - intros j _. reflexivity.
  - exists w'. split; [exact Hrun | split; [exact Hh | exact Hq]].
Defined.

(** C4: with a budget of 9 seconds and the first three attempts rejected,
    the URL waiter makes exactly three HEAD requests and then reports
    "Unable to connect" through [core.setFailed]; it returns normally and
    throws nothing.  And whatever the budget, an attempt that is
    fulfilled ends the waiter there: the successful request is its last
    effect, nothing is reported, no further attempt is made. *)
Theorem waitForUrl_nine_seconds
    (net : network) (url : string) (fuel : nat) (w : world) (n : nat) :
  (forall j, (j < n)%nat ->
             rejected (result (net (sent w + j)%nat (HEAD url))) = true) ->
  (n = 3%nat -> (3 <= fuel)%nat ->
   exists w',
     waitForUrl net url (of_Z 9) fuel w
     = (Return tt,
        record (SetFailed ("Timeout reached: Unable to connect to " ++ url)) w')
     /\ count is_head (trace w') = (count is_head (trace w) + 3)%nat
     /\ count is_http (trace w') = (count is_http (trace w) + 3)%nat
     /\ count is_failed (trace w') = count is_failed (trace w))
  /\ (forall b : Q,
         rejected (result (net (sent w + n)%nat (HEAD url))) = false ->
         (inject_Z (Z.of_nat n) < b / 3)%Q ->
         (n < fuel)%nat ->
         exists w1,
           waitForUrl net url (Num b) fuel w
           = (Return tt, requested net (HEAD url) w1)
           /\ sent w1 = (sent w + n)%nat
           /\ count is_head (trace w1) = (count is_head (trace w) + n)%nat
           /\ count is_failed (trace w1) = count is_failed (trace w)).
Proof.
  intros Hrej. split.
  - intros -> Hfuel.
    pose proof (waitForUrl_exhausted net url 9 fuel w) as H.
    change (Z.to_nat (Qceiling (9 / 3))) with 3%nat in H.
    destruct (H Hfuel Hrej) as (w' & Hrun & _ & Hh & Hq & Hf).
    exists w'. now repeat split.
  - intros b Hok Hlt Hfuel.
    destruct (loop_returns net url (js_div (Num b) (of_Z 3)) n fuel 0 w
                Hfuel Hrej Hok)
      as (w1 & Hrun & Hrest).
    + intros j Hj. apply loop_condition. apply lt_Qceiling in Hlt. lia.
    + exists w1. split; [| exact Hrest].
      unfold waitForUrl, bind. cbv zeta. rewrite Hrun. reflexivity.
Qed.

Lemma waitForUrl_nine_seconds_witness :
  (exists w',
      waitForUrl up_at_fourth preview_url (of_Z 9) 3 initial
      = (Return tt,
         record
           (SetFailed ("Timeout reached: Unable to connect to " ++ preview_url))
           w')
      /\ count is_head (trace w') = 3%nat
      /\ count is_http (trace w') = 3%nat
      /\ count is_failed (trace w') = 0%nat)
  /\ (exists w1,
         waitForUrl up_at_fourth preview_url (Num 12) 4 initial
         = (Return tt, requested up_at_fourth (HEAD preview_url) w1)
         /\ sent w1 = 3%nat
         /\ count is_head (trace w1) = 3%nat
         /\ count is_failed (trace w1) = 0%nat).
Proof.
  split.
  - refine (proj1 (waitForUrl_nine_seconds up_at_fourth preview_url 3 initial 3 _)
              eq_refl (le_n 3)).
    intros j Hj. simpl. destruct j as [| [| [| j]]]; [reflexivity .. | lia].
  - refine (proj2 (waitForUrl_nine_seconds up_at_fourth preview_url 4 initial 3 _)
              12%Q eq_refl eq_refl (le_n 4)).
    intros j Hj. simpl. destruct j as [| [| [| j]]]; [reflexivity .. | lia].
Defined.

(** ** The record the creation waiter returns *)

Lemma strict_eq_true (a b : value) : strict_eq a b = true <-> a = b.
Proof.
  destruct a as [| | s], b as [| | t]; simpl; split;
    try reflexivity; try discriminate.
  - intros H. apply String.eqb_eq in H. now subst.
  - intros H. injection H as ->. apply String.eqb_refl.
Qed.

Lemma find_first {A} (f : A -> bool) (l l1 l2 : list A) (d : A) :
  l = (l1 ++ d :: l2)%list ->
  f d = true ->
  (forall x, In x l1 -> f x = false) ->
  find f l = Some d.
Proof.
  intros -> Hd. induction l1 as [| x l1 IH]; intros Hbefore; simpl.
  - now rewrite Hd.
  - rewrite (Hbefore x (or_introl eq_refl)). apply IH.
    intros y Hy. apply Hbefore. now right.
Qed.

Lemma find_is_first {A} (f : A -> bool) (l : list A) (d : A) :
  find f l = Some d ->
  exists l1 l2,
    l = (l1 ++ d :: l2)%list /\ f d = true /\ forall x, In x l1 -> f x = false.
Proof.
  induction l as [| x l IH]; simpl; [discriminate |].
  destruct (f x) eqn:Hx.
  - intros H. injection H as <-. exists [], l. repeat split; auto.
    intros y [].
  - intros H. destruct (IH H) as (l1 & l2 & -> & Hd & Hbefore).
    exists (x :: l1), l2. repeat split; auto.
    intros y [<- | Hy]; auto.
Qed.

Lemma matches_spec (commitSha : value) (context : string) (x : Deploy.t) :
  WaitForDeployCreation.matches commitSha context x = true
  <-> Deploy.commit_ref x = commitSha
      /\ (context = "" \/ Deploy.context x = Str context).
Proof.
  unfold WaitForDeployCreation.matches.
  rewrite andb_true_iff, orb_true_iff, !strict_eq_true, String.eqb_eq.
  reflexivity.
Qed.

(** When the creation waiter returns a record, the last request it made
    was answered with a list in which that record is the first match. *)
Lemma creation_returns_found (net : network) (tok : value) (url : string)
    (commitSha : value) (timeoutSeconds : number) (context : string)
    (startTime : Z) (fuel : nat) :
  forall (w w' : world) (d : Deploy.t),
    WaitForDeployCreation.checkContinually
      net tok url commitSha timeoutSeconds context startTime fuel w
    = (Return d, w') ->
    exists ms l,
      net (pred (sent w')) (GET url ("Bearer " ++ template tok))
      = {| duration := ms; result := Fulfilled (Array l) |}
      /\ find (WaitForDeployCreation.matches commitSha context) l = Some d.
Proof.
  induction fuel as [| fuel IH]; intros w w' d Hrun.
  - discriminate Hrun.
  - simpl in Hrun.
    unfold WaitForDeployCreation.getCurrentDeploymentIfCreated, bind,
      getNetlifyUrl, axios in Hrun.
    destruct (net (sent w) (GET url ("Bearer " ++ template tok)))
      as [ms res] eqn:Hnet.
    simpl in Hrun. destruct res as [b | e]; [| discriminate Hrun].
    destruct b as [| | l | d0]; simpl in Hrun; try discriminate Hrun.
    destruct (find (WaitForDeployCreation.matches commitSha context) l)
      as [d1 |] eqn:Hfind.
    + simpl in Hrun. injection Hrun as <- <-. simpl.
      exists ms, l. split; [exact Hnet | exact Hfind].
    + simpl in Hrun. apply IH in Hrun. exact Hrun.
Qed.

(** C5: when the deployments list holds a record [d] that matches (its
    commit reference is the target commit and, if a context tag was
    given, its context is that tag) and no record before [d] in the list
    matches, the creation waiter returns [d] in that very iteration, after
    one request and without waiting.  With no context tag a record matches
    exactly when its commit reference is the target commit.  Conversely,
    any record the waiter returns is the first match of the list it last
    fetched. *)
Theorem creation_returns_first_match
    (net : network) (tok : value) (url : string) (commitSha : value)
    (timeoutSeconds : number) (context : string) (fuel : nat) (w : world)
    (ms : Z) (l l1 l2 : list Deploy.t) (d : Deploy.t) :
  net (sent w) (GET url ("Bearer " ++ template tok))
  = {| duration := ms; result := Fulfilled (Array l) |} ->
  l = (l1 ++ d :: l2)%list ->
  WaitForDeployCreation.matches commitSha context d = true ->
  (forall x, In x l1 -> WaitForDeployCreation.matches commitSha context x = false) ->
  (exists s,
      waitForDeployCreation
        net tok url commitSha timeoutSeconds context (S fuel) w
      = (Return d,
         record (Log ("Deployment created (" ++ s ++ "s)") [])
           (requested net (GET url ("Bearer " ++ template tok)) w)))
  /\ (forall x,
         WaitForDeployCreation.matches commitSha context x = true
         <-> Deploy.commit_ref x = commitSha
             /\ (context = "" \/ Deploy.context x = Str context))
  /\ (forall x,
         WaitForDeployCreation.matches commitSha "" x = true
         <-> Deploy.commit_ref x = commitSha)
  /\ (forall (n : nat) (w0 w' : world) (d' : Deploy.t),
         waitForDeployCreation
           net tok url commitSha timeoutSeconds context n w0
         = (Return d', w') ->
         exists ms' l' l1' l2',
           net (pred (sent w')) (GET url ("Bearer " ++ template tok))
           = {| duration := ms'; result := Fulfilled (Array l') |}
           /\ l' = (l1' ++ d' :: l2')%list
           /\ WaitForDeployCreation.matches commitSha context d' = true
           /\ forall x, In x l1' ->
                        WaitForDeployCreation.matches commitSha context x = false).
Proof.
  intros Hnet Hl Hd Hbefore. split; [| split; [| split]].
  - unfold waitForDeployCreation, bind. simpl Date_now. cbv beta iota.
    apply (creation_found net tok url commitSha timeoutSeconds context
             (clock w) fuel w ms l d Hnet).
    exact (find_first _ l l1 l2 d Hl Hd Hbefore).
  - intros x. apply matches_spec.
  - intros x. rewrite matches_spec. intuition.
  - intros n w0 w' d' Hrun.
    unfold waitForDeployCreation, bind in Hrun. simpl in Hrun.
    destruct (creation_returns_found _ _ _ _ _ _ _ n w0 w' d' Hrun)
      as (ms' & l' & Hnet' & Hfind).
    destruct (find_is_first _ l' d' Hfind) as (l1' & l2' & Hl' & Hd' & Hb').
    exists ms', l', l1', l2'. auto.
Qed.

Lemma creation_returns_first_match_witness :
  exists s,
    waitForDeployCreation null_status secret list_endpoint (Str "abc123")
      (of_Z 300) "" 1 initial
    = (Return building_deploy,
       record (Log ("Deployment created (" ++ s ++ "s)") [])
         (requested null_status (GET list_endpoint "Bearer secret") initial)).
Proof.
  refine (proj1 (creation_returns_first_match
                   null_status secret list_endpoint (Str "abc123") (of_Z 300)
                   "" 0 initial 0 [other_deploy; building_deploy]
                   [other_deploy] [] building_deploy
                   eq_refl eq_refl eq_refl _)).
  intros x [<- | []]. reflexivity.
Defined.

(** * Further properties *)

(** ** The elapsed time *)

Lemma Math_round_near (x : Q) :
  (x - (1 # 2) < inject_Z (Qfloor (x + (1 # 2)))
   /\ inject_Z (Qfloor (x + (1 # 2))) <= x + (1 # 2))%Q.
Proof.
  split.
  - pose proof (Qlt_floor (x + (1 # 2))) as H.
    rewrite inject_Z_plus in H. change (inject_Z 1) with 1%Q in H. lra.
  - apply Qfloor_le.
Qed.

(** X1: called with a start time, [ellapsedSeconds] changes nothing in the
    world and returns a whole number of tenths of a second that lies within
    half a tenth of the time elapsed since the start: more than
    [elapsed - 0.05] and at most [elapsed + 0.05]. *)
Theorem ellapsedSeconds_rounds_to_tenths (startTime : Z) (w : world) :
  exists tenths : Z,
    ellapsedSeconds (Some (of_Z startTime)) w
    = (Return (Num (inject_Z tenths / 10)), w)
    /\ (inject_Z (clock w - startTime) / 1000 - (1 # 20)
        < inject_Z tenths / 10)%Q
    /\ (inject_Z tenths / 10
        <= inject_Z (clock w - startTime) / 1000 + (1 # 20))%Q.
Proof.
  exists (Qfloor ((inject_Z (clock w) - inject_Z startTime) / inject_Z 1000
                  * inject_Z 10 + (1 # 2))).
  split; [reflexivity |].
  set (x := ((inject_Z (clock w) - inject_Z startTime) / inject_Z 1000
             * inject_Z 10)%Q).
  destruct (Math_round_near x) as [H1 H2].
  assert (Hx : (x == inject_Z (clock w - startTime) / 1000 * 10)%Q).
  { unfold x. unfold Z.sub. rewrite inject_Z_plus, inject_Z_opp. reflexivity. }
  clearbody x.
  split.
  - apply Qlt_shift_div_l; [reflexivity |]. lra.
  - apply Qle_shift_div_r; [reflexivity |]. lra.
Qed.

(** ** The time budget of the two polling waiters *)

(** X2: the time budget given to the creation waiter and to the readiness
    waiter has no influence on what they do: with any two budgets, the same
    network and the same world, each waiter ends with the same outcome in
    the same world, after the same requests, logs and timers. *)
Theorem polling_budget_irrelevant
    (net : network) (tok : value) (url : string) (commitSha : value)
    (context : string) (t1 t2 : number) (fuel : nat) (w : world) :
  waitForDeployCreation net tok url commitSha t1 context fuel w
  = waitForDeployCreation net tok url commitSha t2 context fuel w
  /\ waitForReadiness net tok url t1 fuel w
     = waitForReadiness net tok url t2 fuel w.
Proof.
  (* The test [ellapsedSeconds() > timeoutSeconds] computes to [false] in
     the body of both waiters, so the two sides are convertible. *)
  split; reflexivity.
Qed.

(** ** Why the polling waiters throw *)

Lemma response_eta (r : response) :
  r = {| duration := duration r; result := result r |}.
Proof. now destruct r. Qed.

Lemma creation_throws_cause (net : network) (tok : value) (url : string)
    (commitSha : value) (timeoutSeconds : number) (context : string)
    (startTime : Z) (fuel : nat) :
  forall (w w' : world) (e : error),
    WaitForDeployCreation.checkContinually
      net tok url commitSha timeoutSeconds context startTime fuel w
    = (Throw e, w') ->
    exists w0,
      w' = requested net (GET url ("Bearer " ++ template tok)) w0
      /\ (result (net (sent w0) (GET url ("Bearer " ++ template tok)))
          = Rejected e
          \/ ((result (net (sent w0) (GET url ("Bearer " ++ template tok)))
               = Fulfilled Absent
               \/ result (net (sent w0) (GET url ("Bearer " ++ template tok)))
                  = Fulfilled JSONNull)
              /\ e = Error "Failed to get deployments for site")
          \/ (exists d,
                 result (net (sent w0) (GET url ("Bearer " ++ template tok)))
                 = Fulfilled (Object d)
                 /\ e = TypeError "netlifyDeployments.find is not a function")).
Proof.
  induction fuel as [| fuel IH]; intros w w' e Hrun.
  - discriminate Hrun.
  - simpl in Hrun.
    unfold WaitForDeployCreation.getCurrentDeploymentIfCreated, bind,
      getNetlifyUrl, axios in Hrun.
    destruct (result (net (sent w) (GET url ("Bearer " ++ template tok))))
      as [b | e0] eqn:Hres.
    + destruct b as [| | l | d]; simpl in Hrun.
      * injection Hrun as <- <-. exists w. split; [reflexivity |].
        right. left. split; [now left | reflexivity].
      * injection Hrun as <- <-. exists w. split; [reflexivity |].
        right. left. split; [now right | reflexivity].
      * destruct (find (WaitForDeployCreation.matches commitSha context) l);
          simpl in Hrun; [discriminate Hrun |].
        apply IH in Hrun. exact Hrun.
      * injection Hrun as <- <-. exists w. split; [reflexivity |].
        right. right. exists d. split; [exact Hres | reflexivity].
    + injection Hrun as <- <-. exists w. split; [reflexivity |].
      left. exact Hres.
Qed.

(** X3: against a provider whose responses carry no data, a list of
    deployment records or a single deployment record (the shapes of [body];
    text bodies and lists holding something other than records are not
    covered), the creation waiter throws only right after a request, and
    only for one of three reasons: the request was rejected (it throws that
    very error), the response carried no data (the "Failed to get
    deployments" error), or the data was a single record and not a list (a
    TypeError).  In particular no list of records, matching or not, and no
    time budget makes it throw. *)
Theorem creation_throws_only_on_bad_response
    (net : network) (tok : value) (url : string) (commitSha : value)
    (timeoutSeconds : number) (context : string) (fuel : nat)
    (w w' : world) (e : error) :
  waitForDeployCreation net tok url commitSha timeoutSeconds context fuel w
  = (Throw e, w') ->
  exists w0,
    w' = requested net (GET url ("Bearer " ++ template tok)) w0
    /\ (result (net (sent w0) (GET url ("Bearer " ++ template tok)))
        = Rejected e
        \/ ((result (net (sent w0) (GET url ("Bearer " ++ template tok)))
             = Fulfilled Absent
             \/ result (net (sent w0) (GET url ("Bearer " ++ template tok)))
                = Fulfilled JSONNull)
            /\ e = Error "Failed to get deployments for site")
        \/ (exists d,
               result (net (sent w0) (GET url ("Bearer " ++ template tok)))
               = Fulfilled (Object d)
               /\ e = TypeError "netlifyDeployments.find is not a function")).
Proof.
  intros Hrun. unfold waitForDeployCreation, bind in Hrun. simpl in Hrun.
  exact (creation_throws_cause _ _ _ _ _ _ _ fuel w w' e Hrun).
Qed.

Lemma creation_throws_only_on_bad_response_witness :
  exists w0,
    {| clock := 150; sent := 1;
       trace := [Http (GET list_endpoint "Bearer secret")] |}
    = requested list_down (GET list_endpoint "Bearer secret") w0
    /\ (result (list_down (sent w0) (GET list_endpoint "Bearer secret"))
        = Rejected unauthorized
        \/ ((result (list_down (sent w0) (GET list_endpoint "Bearer secret"))
             = Fulfilled Absent
             \/ result (list_down (sent w0) (GET list_endpoint "Bearer secret"))
                = Fulfilled JSONNull)
            /\ unauthorized = Error "Failed to get deployments for site")
        \/ (exists d,
               result (list_down (sent w0) (GET list_endpoint "Bearer secret"))
               = Fulfilled (Object d)
               /\ unauthorized
                  = TypeError "netlifyDeployments.find is not a function")).
Proof.
  exact (creation_throws_only_on_bad_response
           list_down secret list_endpoint (Str "abc123") (of_Z 300) "" 1
           initial _ unauthorized eq_refl).
Defined.

Lemma readiness_throws_cause (net : network) (tok : value) (url : string)
    (timeoutSeconds : number) (startTime : Z) (fuel : nat) :
  forall (latest : value) (w w' : world) (e : error),
    WaitForReadiness.checkContinually
      net tok url timeoutSeconds startTime fuel latest w
    = (Throw e, w') ->
    exists w0,
      w' = requested net (GET url ("Bearer " ++ template tok)) w0
      /\ (result (net (sent w0) (GET url ("Bearer " ++ template tok)))
          = Rejected e
          \/ (result (net (sent w0) (GET url ("Bearer " ++ template tok)))
              = Fulfilled Absent
              /\ e = TypeError "Cannot read properties of undefined (reading 'state')")
          \/ (result (net (sent w0) (GET url ("Bearer " ++ template tok)))
              = Fulfilled JSONNull
              /\ e = TypeError "Cannot read properties of null (reading 'state')")).
Proof.
  induction fuel as [| fuel IH]; intros latest w w' e Hrun.
  - discriminate Hrun.
  - simpl in Hrun.
    unfold WaitForReadiness.isCurrentDeploymentReady, bind,
      getNetlifyUrl, axios in Hrun.
    destruct (result (net (sent w) (GET url ("Bearer " ++ template tok))))
      as [b | e0] eqn:Hres.
    + destruct b as [| | l | d]; simpl in Hrun.
      * injection Hrun as <- <-. exists w. split; [reflexivity |].
        right. left. split; [exact Hres | reflexivity].
      * injection Hrun as <- <-. exists w. split; [reflexivity |].
        right. right. split; [exact Hres | reflexivity].
      * apply IH in Hrun. exact Hrun.
      * destruct (includes READY_STATES (Deploy.state d));
          simpl in Hrun; [discriminate Hrun |].
        apply IH in Hrun. exact Hrun.
    + injection Hrun as <- <-. exists w. split; [reflexivity |].
      left. exact Hres.
Qed.

(** X4: the readiness waiter throws only right after a request, and only
    because the request was rejected (it throws that very error) or because
    the response carried no record (the TypeError of reading [state]).  No
    status of the deployment, ready or not, and no time budget makes it
    throw. *)
Theorem readiness_throws_only_on_bad_response
    (net : network) (tok : value) (url : string) (timeoutSeconds : number)
    (fuel : nat) (w w' : world) (e : error) :
  waitForReadiness net tok url timeoutSeconds fuel w = (Throw e, w') ->
  exists w0,
    w' = requested net (GET url ("Bearer " ++ template tok)) w0
    /\ (result (net (sent w0) (GET url ("Bearer " ++ template tok)))
        = Rejected e
        \/ (result (net (sent w0) (GET url ("Bearer " ++ template tok)))
            = Fulfilled Absent
            /\ e = TypeError "Cannot read properties of undefined (reading 'state')")
        \/ (result (net (sent w0) (GET url ("Bearer " ++ template tok)))
            = Fulfilled JSONNull
            /\ e = TypeError "Cannot read properties of null (reading 'state')")).
Proof.
  intros Hrun. unfold waitForReadiness, bind in Hrun. simpl in Hrun.
  exact (readiness_throws_cause _ _ _ _ _ fuel _ w w' e Hrun).
Qed.

Lemma readiness_throws_only_on_bad_response_witness :
  exists w0,
    {| clock := 150; sent := 1;
       trace := [Http (GET status_endpoint "Bearer secret")] |}
    = requested list_down (GET status_endpoint "Bearer secret") w0
    /\ (result (list_down (sent w0) (GET status_endpoint "Bearer secret"))
        = Rejected unauthorized
        \/ (result (list_down (sent w0) (GET status_endpoint "Bearer secret"))
            = Fulfilled Absent
            /\ unauthorized
               = TypeError "Cannot read properties of undefined (reading 'state')")
        \/ (result (list_down (sent w0) (GET status_endpoint "Bearer secret"))
            = Fulfilled JSONNull
            /\ unauthorized
               = TypeError "Cannot read properties of null (reading 'state')")).
Proof.
  exact (readiness_throws_only_on_bad_response
           list_down secret status_endpoint (of_Z 900) 1 initial _
           unauthorized eq_refl).
Defined.

(** ** How long the polling waiters take *)

Lemma latency_last (net : network) (r : request) (n : nat) :
  forall from : nat,
    latency net r from (S n)
    = latency net r from n + duration (net (from + n)%nat r).
Proof.
  induction n as [| n IH]; intros from.
  - simpl. rewrite Nat.add_0_r. lia.
  - change (latency net r from (S (S n)))
      with (duration (net from r) + latency net r (S from) (S n)).
    rewrite IH. simpl latency.
    replace (S from + n)%nat with (from + S n)%nat by lia. lia.
Qed.

Lemma creation_found_after (net : network) (tok : value) (url : string)
    (commitSha : value) (timeoutSeconds : number) (context : string)
    (startTime : Z) (d : Deploy.t) (k : nat) :
  forall (fuel : nat) (w : world),
    (k < fuel)%nat ->
    (forall j, (j < k)%nat ->
       exists l,
         result (net (sent w + j)%nat (GET url ("Bearer " ++ template tok)))
         = Fulfilled (Array l)
         /\ find (WaitForDeployCreation.matches commitSha context) l = None) ->
    (exists l,
        result (net (sent w + k)%nat (GET url ("Bearer " ++ template tok)))
        = Fulfilled (Array l)
        /\ find (WaitForDeployCreation.matches commitSha context) l = Some d) ->
    exists w',
      WaitForDeployCreation.checkContinually
        net tok url commitSha timeoutSeconds context startTime fuel w
      = (Return d, w')
      /\ sent w' = (sent w + S k)%nat
      /\ count is_http (trace w') = (count is_http (trace w) + S k)%nat
      /\ count is_sleep (trace w') = (count is_sleep (trace w) + k)%nat
      /\ clock w'
         = clock w + 5000 * Z.of_nat k
           + latency net (GET url ("Bearer " ++ template tok)) (sent w) (S k).
Proof.
  induction k as [| k IH]; intros fuel w Hfuel Hbefore (l & Hres & Hfind).
  - destruct fuel as [| fuel]; [lia |].
    rewrite Nat.add_0_r in Hres.
    destruct (creation_found net tok url commitSha timeoutSeconds context
                startTime fuel w _ l d
                (eq_trans (response_eta _) (f_equal _ Hres)) Hfind)
      as (s & Hrun).
    eexists. split; [exact Hrun |].
    unfold count. simpl. repeat split; lia.
  - destruct fuel as [| fuel]; [lia |].
    destruct (Hbefore 0%nat) as (l0 & Hres0 & Hfind0); [lia |].
    rewrite Nat.add_0_r in Hres0.
    rewrite (creation_retry net tok url commitSha timeoutSeconds context
               startTime fuel w _ l0
               (eq_trans (response_eta _) (f_equal _ Hres0)) Hfind0).
    match goal with
    | |- context [WaitForDeployCreation.checkContinually _ _ _ _ _ _ _ fuel ?w1] =>
        destruct (IH fuel w1) as (w' & Hrun & Hs & Hq & Hz & Hc)
    end.
    + lia.
    + intros j Hj. simpl sent.
      replace (S (sent w) + j)%nat with (sent w + S j)%nat by lia.
      apply Hbefore. lia.
    + exists l. simpl sent.
      replace (S (sent w) + k)%nat with (sent w + S k)%nat by lia.
      now split.
    + exists w'. split; [exact Hrun |].
      cbn [clock sent trace slept record requested] in Hs, Hq, Hz, Hc.
      unfold count in *.
      cbn [filter is_http is_sleep Datatypes.length] in Hq, Hz.
      repeat split; [lia | lia | lia |].
      rewrite Hc, Nat2Z.inj_succ.
      change (latency net (GET url ("Bearer " ++ template tok)) (sent w)
                (S (S k)))
        with (duration (net (sent w) (GET url ("Bearer " ++ template tok)))
              + latency net (GET url ("Bearer " ++ template tok))
                  (S (sent w)) (S k)).
      lia.
Qed.

(** X5: when the first [k] answers of the deployments endpoint are lists
    without a match and the next one holds a match, whose first is [d],
    the creation waiter returns [d] after exactly [k + 1] requests and [k]
    timers; the clock has then advanced by [k] times 5 seconds plus the
    time the requests took. *)
Theorem creation_returns_after_k_polls
    (net : network) (tok : value) (url : string) (commitSha : value)
    (timeoutSeconds : number) (context : string) (d : Deploy.t) (k : nat)
    (fuel : nat) (w : world) :
  (k < fuel)%nat ->
  (forall j, (j < k)%nat ->
     exists l,
       result (net (sent w + j)%nat (GET url ("Bearer " ++ template tok)))
       = Fulfilled (Array l)
       /\ find (WaitForDeployCreation.matches commitSha context) l = None) ->
  (exists l,
      result (net (sent w + k)%nat (GET url ("Bearer " ++ template tok)))
      = Fulfilled (Array l)
      /\ find (WaitForDeployCreation.matches commitSha context) l = Some d) ->
  exists w',
    waitForDeployCreation net tok url commitSha timeoutSeconds context fuel w
    = (Return d, w')
    /\ sent w' = (sent w + S k)%nat
    /\ count is_http (trace w') = (count is_http (trace w) + S k)%nat
    /\ count is_sleep (trace w') = (count is_sleep (trace w) + k)%nat
    /\ clock w'
       = clock w + 5000 * Z.of_nat k
         + latency net (GET url ("Bearer " ++ template tok)) (sent w) (S k).
Proof.
  intros Hfuel Hbefore Hmatch.
  unfold waitForDeployCreation, bind. simpl Date_now. cbv beta iota.
  exact (creation_found_after net tok url commitSha timeoutSeconds context
           (clock w) d k fuel w Hfuel Hbefore Hmatch).
Qed.

Lemma creation_returns_after_k_polls_witness :
  exists w',
    waitForDeployCreation match_at_fourth secret list_endpoint (Str "abc123")
      (of_Z 300) "" 4 initial
    = (Return building_deploy, w')
    /\ sent w' = 4%nat
    /\ count is_http (trace w') = 4%nat
    /\ count is_sleep (trace w') = 3%nat
    /\ clock w' = 15800.
Proof.
  refine (creation_returns_after_k_polls
            match_at_fourth secret list_endpoint (Str "abc123") (of_Z 300) ""
            building_deploy 3 4 initial (le_n 4) _ _).
  - intros j Hj. exists [other_deploy].
    destruct j as [| [| [| j]]]; [split; reflexivity .. | lia].
  - exists [other_deploy; building_deploy]. split; reflexivity.
Defined.

Lemma readiness_ready_after (net : network) (tok : value) (url : string)
    (timeoutSeconds : number) (startTime : Z) (k : nat) :
  forall (fuel : nat) (latest : value) (w : world),
    (k < fuel)%nat ->
    (forall j, (j < k)%nat ->
       exists d,
         result (net (sent w + j)%nat (GET url ("Bearer " ++ template tok)))
         = Fulfilled (Object d)
         /\ includes READY_STATES (Deploy.state d) = false) ->
    (exists d,
        result (net (sent w + k)%nat (GET url ("Bearer " ++ template tok)))
        = Fulfilled (Object d)
        /\ includes READY_STATES (Deploy.state d) = true) ->
    exists w',
      WaitForReadiness.checkContinually
        net tok url timeoutSeconds startTime fuel latest w
      = (Return tt, w')
      /\ sent w' = (sent w + S k)%nat
      /\ count is_http (trace w') = (count is_http (trace w) + S k)%nat
      /\ count is_sleep (trace w') = (count is_sleep (trace w) + k)%nat
      /\ clock w'
         = clock w + 10000 * Z.of_nat k
           + latency net (GET url ("Bearer " ++ template tok)) (sent w) (S k).
Proof.
  induction k as [| k IH]; intros fuel latest w Hfuel Hbefore (d & Hres & Hready).
  - destruct fuel as [| fuel]; [lia |].
    rewrite Nat.add_0_r in Hres.
    destruct (readiness_ready net tok url timeoutSeconds startTime fuel latest
                w _ d (eq_trans (response_eta _) (f_equal _ Hres)) Hready)
      as (s & Hrun).
    eexists. split; [exact Hrun |].
    unfold count. simpl. repeat split; lia.
  - destruct fuel as [| fuel]; [lia |].
    destruct (Hbefore 0%nat) as (d0 & Hres0 & Hnot0); [lia |].
    rewrite Nat.add_0_r in Hres0.
    rewrite (readiness_retry net tok url timeoutSeconds startTime fuel latest
               w _ d0 (eq_trans (response_eta _) (f_equal _ Hres0)) Hnot0).
    match goal with
    | |- context [WaitForReadiness.checkContinually _ _ _ _ _ fuel ?l1 ?w1] =>
        destruct (IH fuel l1 w1) as (w' & Hrun & Hs & Hq & Hz & Hc)
    end.
    + lia.
    + intros j Hj. simpl sent.
      replace (S (sent w) + j)%nat with (sent w + S j)%nat by lia.
      apply Hbefore. lia.
    + exists d. simpl sent.
      replace (S (sent w) + k)%nat with (sent w + S k)%nat by lia.
      now split.
    + exists w'. split; [exact Hrun |].
      cbn [clock sent trace slept record requested] in Hs, Hq, Hz, Hc.
      unfold count in *.
      cbn [filter is_http is_sleep Datatypes.length] in Hq, Hz.
      repeat split; [lia | lia | lia |].
      rewrite Hc, Nat2Z.inj_succ.
      change (latency net (GET url ("Bearer " ++ template tok)) (sent w)
                (S (S k)))
        with (duration (net (sent w) (GET url ("Bearer " ++ template tok)))
              + latency net (GET url ("Bearer " ++ template tok))
                  (S (sent w)) (S k)).
      lia.
Qed.

(** X6: when the first [k] answers of the status endpoint are records in a
    state that is not ready and the next one is a record in a ready state,
    the readiness waiter returns after exactly [k + 1] requests and [k]
    timers; the clock has then advanced by [k] times 10 seconds plus the
    time the requests took. *)
Theorem readiness_returns_after_k_polls
    (net : network) (tok : value) (url : string) (timeoutSeconds : number)
    (k : nat) (fuel : nat) (w : world) :
  (k < fuel)%nat ->
  (forall j, (j < k)%nat ->
     exists d,
       result (net (sent w + j)%nat (GET url ("Bearer " ++ template tok)))
       = Fulfilled (Object d)
       /\ includes READY_STATES (Deploy.state d) = false) ->
  (exists d,
      result (net (sent w + k)%nat (GET url ("Bearer " ++ template tok)))
      = Fulfilled (Object d)
      /\ includes READY_STATES (Deploy.state d) = true) ->
  exists w',
    waitForReadiness net tok url timeoutSeconds fuel w = (Return tt, w')
    /\ sent w' = (sent w + S k)%nat
    /\ count is_http (trace w') = (count is_http (trace w) + S k)%nat
    /\ count is_sleep (trace w') = (count is_sleep (trace w) + k)%nat
    /\ clock w'
       = clock w + 10000 * Z.of_nat k
         + latency net (GET url ("Bearer " ++ template tok)) (sent w) (S k).
Proof.
  intros Hfuel Hbefore Hready.
  unfold waitForReadiness, bind. simpl Date_now. cbv beta iota.
  exact (readiness_ready_after net tok url timeoutSeconds (clock w) k fuel
           (Str "(unknown)") w Hfuel Hbefore Hready).
Qed.

Lemma readiness_returns_after_k_polls_witness :
  exists w',
    waitForReadiness ready_at_third secret status_endpoint (of_Z 900) 3 initial
    = (Return tt, w')
    /\ sent w' = 3%nat
    /\ count is_http (trace w') = 3%nat
    /\ count is_sleep (trace w') = 2%nat
    /\ clock w' = 20600.
Proof.
  refine (readiness_returns_after_k_polls
            ready_at_third secret status_endpoint (of_Z 900) 2 3 initial
            (le_n 3) _ _).
  - intros j Hj. exists building_deploy.
    destruct j as [| [| j]]; [split; reflexivity .. | lia].
  - exists ready_deploy. split; reflexivity.
Defined.

(** ** The URL waiter: termination, bounds and duration *)





(** X8: a budget that is not positive (zero, negative or [NaN]) gives no
    attempt at all: the URL waiter sends no request, starts no timer and
    reports at once that it was unable to connect, even with no fuel. *)
Theorem waitForUrl_without_budget
    (net : network) (url : string) (timeoutSeconds : number) (fuel : nat)
    (w : world) :
  js_gt timeoutSeconds (of_Z 0) = false ->
  waitForUrl net url timeoutSeconds fuel w
  = (Return tt,
     record (SetFailed ("Timeout reached: Unable to connect to " ++ url)) w).
Proof.
  intros Hnot.
  assert (Hc : js_lt (of_Z 0) (js_div timeoutSeconds (of_Z 3)) = false).
  { destruct timeoutSeconds as [b |]; [| reflexivity].
    change (js_div (Num b) (of_Z 3)) with (Num (b / 3)).
    destruct (js_lt (of_Z 0) (Num (b / 3))) eqn:E; [| reflexivity].
    apply js_lt_of_Z in E.
    assert (Hb : (0 < b)%Q).
    { change (inject_Z 0) with 0%Q in E. unfold Qdiv in E.
      change (/ 3)%Q with (1 # 3)%Q in E. lra. }
    assert (Hgt : js_lt (of_Z 0) (Num b) = true) by now apply js_lt_of_Z.
    unfold js_lt in Hgt. congruence. }
  unfold waitForUrl, bind. cbv zeta.
  rewrite (loop_condition_false net url _ fuel 0 w Hc). reflexivity.
Qed.

Lemma waitForUrl_without_budget_witness :
  waitForUrl all_good preview_url (Num (-5)) 0 initial
  = (Return tt,
     {| clock := 0; sent := 0;
        trace := [SetFailed "Timeout reached: Unable to connect to https://xyz--mysite.netlify.app"] |}).
Proof.
  exact (waitForUrl_without_budget all_good preview_url (Num (-5)) 0 initial
           eq_refl).
Defined.

Lemma latency_nonneg (net : network) (r : request) (n : nat) :
  (forall k, 0 <= duration (net k r)) ->
  forall from : nat, 0 <= latency net r from n.
Proof.
  intros Hd. induction n as [| n IH]; intros from; simpl; [lia |].
  specialize (IH (S from)). specialize (Hd from). lia.
Qed.

Lemma loop_exhausted_clock (net : network) (url : string)
    (iterations : number) (n : nat) :
  forall (fuel : nat) (i : Z) (w : world),
    (n <= fuel)%nat ->
    (forall j, (j < n)%nat ->
               rejected (result (net (sent w + j)%nat (HEAD url))) = true) ->
    (forall j, (j < n)%nat -> js_lt (of_Z (i + Z.of_nat j)) iterations = true) ->
    js_lt (of_Z (i + Z.of_nat n)) iterations = false ->
    exists w',
      waitForUrl_loop net url iterations fuel i w = (Return false, w')
      /\ count is_sleep (trace w') = (count is_sleep (trace w) + n)%nat
      /\ clock w'
         = clock w + 3000 * Z.of_nat n + latency net (HEAD url) (sent w) n.
Proof.
  induction n as [| n IH]; intros fuel i w Hfuel Hrej Hlt Hstop.
  - exists w. rewrite Z.add_0_r in Hstop.
    rewrite (loop_condition_false net url iterations fuel i w Hstop).
    simpl. repeat split; lia.
  - destruct fuel as [| fuel]; [lia |].
    destruct (loop_attempt_rejected net url iterations fuel i w)
      as (e & _ & Hstep).
    + specialize (Hlt 0%nat). rewrite Z.add_0_r in Hlt. apply Hlt. lia.
    + specialize (Hrej 0%nat). rewrite Nat.add_0_r in Hrej. apply Hrej. lia.
    + rewrite Hstep.
      match goal with
      | |- context [waitForUrl_loop _ _ _ fuel (i + 1) ?w1] =>
          destruct (IH fuel (i + 1) w1) as (w' & Hrun & Hz & Hc)
      end.
      * lia.
      * intros j Hj. simpl sent.
        replace (S (sent w) + j)%nat with (sent w + S j)%nat by lia.
        apply Hrej. lia.
      * intros j Hj.
        replace (i + 1 + Z.of_nat j) with (i + Z.of_nat (S j)) by lia.
        apply Hlt. lia.
      * replace (i + 1 + Z.of_nat n) with (i + Z.of_nat (S n)) by lia.
        exact Hstop.
      * exists w'. split; [exact Hrun |].
        cbn [clock sent trace slept record requested] in Hz, Hc.
        unfold count in *.
        cbn [filter is_sleep Datatypes.length] in Hz.
        split; [lia |].
        rewrite Hc, Nat2Z.inj_succ.
        change (latency net (HEAD url) (sent w) (S n))
          with (duration (net (sent w) (HEAD url))
                + latency net (HEAD url) (S (sent w)) n).
        lia.
Qed.

(** X9: when every attempt is rejected, the URL waiter reports its failure
    after one timer of 3 seconds per attempt, the last attempt included:
    the clock has advanced by 3 seconds times the number of attempts plus
    the time the requests took.  So, if no request takes a negative time,
    the failure is never reported before the budget has elapsed. *)
Theorem waitForUrl_gives_up_after_budget
    (net : network) (url : string) (b : Q) (fuel : nat) (w : world) :
  (Z.to_nat (Qceiling (b / 3)) <= fuel)%nat ->
  (forall j, (j < Z.to_nat (Qceiling (b / 3)))%nat ->
             rejected (result (net (sent w + j)%nat (HEAD url))) = true) ->
  (forall k, 0 <= duration (net k (HEAD url))) ->
  exists w',
    waitForUrl net url (Num b) fuel w
    = (Return tt,
       record (SetFailed ("Timeout reached: Unable to connect to " ++ url)) w')
    /\ count is_sleep (trace w')
       = (count is_sleep (trace w) + Z.to_nat (Qceiling (b / 3)))%nat
    /\ clock w'
       = clock w + 3000 * Z.of_nat (Z.to_nat (Qceiling (b / 3)))
         + latency net (HEAD url) (sent w) (Z.to_nat (Qceiling (b / 3)))
    /\ (1000 * b <= inject_Z (clock w' - clock w))%Q.
Proof.
  intros Hfuel Hrej Hdur.
  destruct (loop_exhausted_clock net url (js_div (Num b) (of_Z 3))
              (Z.to_nat (Qceiling (b / 3))) fuel 0 w Hfuel Hrej)
    as (w' & Hrun & Hz & Hc).
  - intros j Hj. apply loop_condition. lia.
  - destruct (js_lt (of_Z (0 + Z.of_nat (Z.to_nat (Qceiling (b / 3)))))
                (js_div (Num b) (of_Z 3))) eqn:E; [| reflexivity].
    apply loop_condition in E. lia.
  - exists w'. split; [| split; [exact Hz | split; [exact Hc |]]].
    + unfold waitForUrl, bind. cbv zeta. rewrite Hrun. reflexivity.
    + pose proof (latency_nonneg net (HEAD url)
                    (Z.to_nat (Qceiling (b / 3))) Hdur (sent w)) as Hlat.
      pose proof (Qle_ceiling (b / 3)) as Hceil.
      assert (Hz3 : Qceiling (b / 3) * 3000 <= clock w' - clock w) by lia.
      rewrite Zle_Qle, inject_Z_mult in Hz3.
      change (inject_Z 3000) with 3000%Q in Hz3.
      set (c := inject_Z (Qceiling (b / 3))) in *. clearbody c.
      unfold Qdiv in Hceil. change (/ 3)%Q with (1 # 3)%Q in Hceil.
      lra.
Qed.

Lemma waitForUrl_gives_up_after_budget_witness :
  exists w',
    waitForUrl never_up preview_url (Num 10) 4 initial
    = (Return tt,
       record (SetFailed ("Timeout reached: Unable to connect to " ++ preview_url))
         w')
    /\ count is_sleep (trace w') = 4%nat
    /\ clock w' = 12400
    /\ (1000 * 10 <= inject_Z (clock w' - 0))%Q.
Proof.
  refine (waitForUrl_gives_up_after_budget never_up preview_url 10 4 initial
            (le_n 4) _ _).
  - intros j _. reflexivity.
  - intros k. discriminate.
Defined.

(** ** Exceptions in a run *)

Lemma count_app_none (f : event -> bool) (new t : list event) :
  Forall (fun e => f e = false) new ->
  count f (new ++ t)%list = count f t.
Proof.
  unfold count. induction 1 as [| e new He _ IH]; simpl; [reflexivity |].
  now rewrite He.
Qed.

(** Phase 1 adds to the trace the request for the deployments list, logs,
    timers and reported failures, and nothing else. *)
Lemma run_phase1_emits (P : event -> Prop) (net : network) (cfg : config)
    (fuel : nat) :
  P (Http (GET (deploys_url (input_site_id cfg))
             ("Bearer " ++ template (env_NETLIFY_TOKEN cfg)))) ->
  (forall msg, P (Log msg [])) ->
  (forall ms, P (Sleep ms)) ->
  (forall msg, P (SetFailed msg)) ->
  emits_only P (run_phase1 net cfg fuel).
Proof.
  intros Hreq Hlog Hsleep Hfail.
  unfold run_phase1, core_setFailed, console_log.
  apply emits_only_bind.
  - unfold resolve_commitSha.
    destruct (eventName cfg =? "pull_request")%string; [| auto with effects].
    destruct (pull_request_head_sha cfg); auto with effects.
  - intros commitSha.
    do 4 (apply emits_only_bind; [auto with effects | intros ?]).
    unfold waitForDeployCreation.
    apply emits_only_bind; [auto with effects | intros start].
    apply creation_effects; auto with effects.
Qed.

(** X10: [run] never throws.  When phase 1 throws, the run reports the
    message of the error through [core.setFailed] in the world where it was
    thrown and returns: nothing else happens afterwards, and no output has
    been published. *)
Theorem run_reports_phase1_exception
    (net : network) (cfg : config) (fuel : nat) (w w1 : world) (e : error) :
  run_phase1 net cfg fuel w = (Throw e, w1) ->
  run net cfg fuel w = (Return tt, record (SetFailed (message e)) w1)
  /\ count is_output (trace (snd (run net cfg fuel w)))
     = count is_output (trace w)
  /\ (forall (cfg' : config) (n : nat) (w0 : world) (e' : error),
         fst (run net cfg' n w0) <> Throw e').
Proof.
  intros H1. split; [| split].
  - unfold run, try_catch, bind. now rewrite H1.
  - assert (Hrun : run net cfg fuel w
                   = (Return tt, record (SetFailed (message e)) w1)).
    { unfold run, try_catch, bind. now rewrite H1. }
    rewrite Hrun. cbn [snd trace record].
    destruct (run_phase1_emits (fun e0 => is_output e0 = false) net cfg fuel)
      with (w := w) as (new & Hnew & HP); try reflexivity.
    rewrite H1 in Hnew. cbn [snd] in Hnew. rewrite Hnew.
    change (SetFailed (message e) :: new ++ trace w)%list
      with ((SetFailed (message e) :: new) ++ trace w)%list.
    apply count_app_none. now constructor.
  - intros cfg' n w0 e'. unfold run, try_catch.
    destruct ((commitDeployment <- run_phase1 net cfg' n ;;
               run_phase23 net cfg' n commitDeployment) w0)
      as [[[] | e0 |] w2]; simpl; discriminate.
Qed.

Lemma run_reports_phase1_exception_witness :
  run list_down push_config 1 initial
  = (Return tt,
     {| clock := 150; sent := 1;
        trace := [SetFailed "Request failed with status code 401";
                  Http (GET list_endpoint "Bearer secret");
                  Log "Waiting for Netlify to create a deployment for git SHA abc123" []]
     |}).
Proof.
  exact (proj1 (run_reports_phase1_exception
                  list_down push_config 1 initial
                  (snd (run_phase1 list_down push_config 1 initial))
                  unauthorized eq_refl)).
Defined.

(** ** The deployment phase 1 settles on *)

(** X11: the deployment that phase 1 of a run returns is one for the
    commit of the triggering event (for a pull request the head commit of
    the pull request, otherwise [github.context.sha]) and, when the
    [context] input is not empty, one with that context. *)
Theorem run_phase1_returns_deploy_of_commit
    (net : network) (cfg : config) (fuel : nat) (w w1 : world)
    (d : Deploy.t) :
  run_phase1 net cfg fuel w = (Return d, w1) ->
  (if (eventName cfg =? "pull_request")%string
   then pull_request_head_sha cfg = Some (Deploy.commit_ref d)
   else sha cfg = Deploy.commit_ref d)
  /\ (input_context cfg = ""
      \/ Deploy.context d = Str (input_context cfg)).
Proof.
  intros H1.
  assert (Hres : exists c,
             resolve_commitSha cfg w = (Return c, w)
             /\ if (eventName cfg =? "pull_request")%string
                then pull_request_head_sha cfg = Some c
                else sha cfg = c).
  { unfold run_phase1, bind in H1. unfold resolve_commitSha in *.
    destruct (eventName cfg =? "pull_request")%string.
    - destruct (pull_request_head_sha cfg) as [c |]; [| discriminate H1].
      exists c. now split.
    - exists (sha cfg). now split. }
  destruct Hres as (c & Hres & Hc).
  destruct (run_phase1_after_checks net cfg fuel w c Hres) as (msg & Heq).
  rewrite Heq in H1. unfold waitForDeployCreation, bind in H1. simpl in H1.
  destruct (creation_returns_found _ _ _ _ _ _ _ fuel _ w1 d H1)
    as (ms & l & _ & Hfind).
  destruct (find_is_first _ l d Hfind) as (_ & _ & _ & Hd & _).
  apply matches_spec in Hd. destruct Hd as [Hcommit Hctx].
  subst c. split; [exact Hc | exact Hctx].
Qed.

Lemma run_phase1_returns_deploy_of_commit_witness :
  Some (Str "abc123") = Some (Deploy.commit_ref building_deploy)
  /\ ("deploy-preview" = ""
      \/ Deploy.context building_deploy = Str "deploy-preview").
Proof.
  exact (run_phase1_returns_deploy_of_commit
           null_status pull_request_config 1 initial
           (snd (run_phase1 null_status pull_request_config 1 initial))
           building_deploy eq_refl).
Defined.

(** ** The requests of a run *)

Lemma run_request_other (cfg : config) (e : event) :
  is_http e = false -> run_request cfg e.
Proof. intros He Hhttp. congruence. Qed.

Lemma run_phase23_requests (net : network) (cfg : config) (fuel : nat)
    (d : Deploy.t) :
  emits_only (run_request cfg) (run_phase23 net cfg fuel d).
Proof.
  assert (Hother : forall e, is_http e = false -> run_request cfg e)
    by apply run_request_other.
  unfold run_phase23, core_setOutput, console_log.
  do 3 (apply emits_only_bind; [auto with effects | intros ?]).
  apply emits_only_bind; [| intros ?].
  - unfold waitForReadiness.
    apply emits_only_bind; [auto with effects | intros start].
    apply readiness_effects; auto.
    intros _. right. exists d. left. reflexivity.
  - apply emits_only_bind; [auto with effects | intros ?].
    unfold waitForUrl.
    apply emits_only_bind.
    + apply waitForUrl_loop_effects; auto.
      intros _. right. exists d. right. reflexivity.
    + intros [|]; unfold core_setFailed; auto with effects.
Qed.

(** X12: the only requests a run sends are GET requests for the
    deployments list of the site and for the status of one of its
    deployments, both with the bearer token, and HEAD requests to the
    preview URL of a deployment; this holds whatever the network answers
    and however the run ends. *)
Theorem run_sends_only_its_requests
    (net : network) (cfg : config) (fuel : nat) (w : world) :
  exists new,
    trace (snd (run net cfg fuel w)) = (new ++ trace w)%list
    /\ Forall (run_request cfg) new.
Proof.
  assert (Hother : forall e, is_http e = false -> run_request cfg e)
    by apply run_request_other.
  revert w. change (emits_only (run_request cfg) (run net cfg fuel)).
  unfold run. apply emits_only_try_catch.
  - apply emits_only_bind.
    + apply run_phase1_emits; auto. intros _. left. reflexivity.
    + intros d. apply run_phase23_requests.
  - intros e. unfold core_setFailed. auto with effects.
Qed.

(** ** A run in which every phase succeeds *)

(** X13: with the token, the commit and the site identifier all present,
    a run in which phase 1 returns a deployment, the readiness waiter
    returns and an attempt of the URL waiter is fulfilled ends in the world
    the URL waiter left: it has published its two outputs and has reported
    no failure. *)
Theorem run_success_reports_no_failure
    (net : network) (cfg : config) (fuel : nat) (w w1 w3 w4 : world)
    (commitSha : value) (d : Deploy.t) :
  resolve_commitSha cfg w = (Return commitSha, w) ->
  falsy (env_NETLIFY_TOKEN cfg) = false ->
  falsy commitSha = false ->
  (input_site_id cfg =? "")%string = false ->
  run_phase1 net cfg fuel w = (Return d, w1) ->
  waitForReadiness net (env_NETLIFY_TOKEN cfg)
    (deploys_url (input_site_id cfg) ++ "/" ++ template (Deploy.id d))
    MAX_WAIT_TIMEOUT fuel
    (record
       (Log ("Waiting for Netlify deployment "
               ++ template (Deploy.id d) ++ " in site "
               ++ template (Deploy.name d) ++ " to be ready") [])
       (record (SetOutput "url" (Str (deploy_url d)))
          (record (SetOutput "deploy_id" (Deploy.id d)) w1)))
  = (Return tt, w3) ->
  waitForUrl_loop net (deploy_url d)
    (js_div (MAX_READY_TIMEOUT cfg) (of_Z 3)) fuel 0
    (record (Log ("Waiting for a 200 from: " ++ deploy_url d) []) w3)
  = (Return true, w4) ->
  run net cfg fuel w = (Return tt, w4)
  /\ count is_failed (trace w4) = count is_failed (trace w)
  /\ count is_output (trace w4) = (count is_output (trace w) + 2)%nat.
Proof.
  intros Hres Htok Hsha Hsite H1 H2 H3.
  assert (Hrun : run net cfg fuel w = (Return tt, w4)).
  { rewrite (run_after_phase1 net cfg fuel w w1 d H1).
    unfold run_phase23, core_setOutput, console_log, try_catch.
    rewrite !bind_emit. unfold bind at 1. rewrite H2.
    rewrite bind_emit. unfold waitForUrl, bind. cbv zeta. rewrite H3.
    reflexivity. }
  split; [exact Hrun |].
  (* phase 1 *)
  destruct (run_phase1_after_checks net cfg fuel w commitSha Hres)
    as (msg & Heq).
  rewrite Htok, Hsha, Hsite in Heq. rewrite Heq in H1.
  match type of H1 with
  | waitForDeployCreation ?n ?t ?u ?c ?T ?x ?f ?w0 = _ =>
      change (WaitForDeployCreation.checkContinually n t u c T x (clock w0) f w0
              = (Return d, w1)) in H1
  end.
  assert (Hp1 : forall f, f (Log msg []) = false ->
                (forall r, f (Http r) = false) ->
                (forall m, f (Log m []) = false) ->
                (forall ms, f (Sleep ms) = false) ->
                count f (trace w1) = count f (trace w)).
  { intros f Hf0 Hfr Hfl Hfs.
    match type of H1 with
    | WaitForDeployCreation.checkContinually _ _ _ _ _ _ ?st _ ?w0 = _ =>
        destruct (creation_effects (fun e => f e = false) net
                    (env_NETLIFY_TOKEN cfg) (deploys_url (input_site_id cfg))
                    commitSha MAX_CREATE_TIMEOUT (input_context cfg) st fuel
                    (Hfr _) Hfl Hfs w0) as (new & Hnew & HP)
    end.
    rewrite H1 in Hnew. cbn [snd trace app] in Hnew. rewrite Hnew.
    rewrite (count_app_none f new _ HP). unfold count. simpl. now rewrite Hf0. }
  (* phase 2 *)
  assert (Hp2 : forall f, (forall r, f (Http r) = false) ->
                (forall m, f (Log m []) = false) ->
                (forall ms, f (Sleep ms) = false) ->
                count f (trace w3)
                = count f (SetOutput "url" (Str (deploy_url d))
                             :: SetOutput "deploy_id" (Deploy.id d)
                             :: trace w1)).
  { intros f Hfr Hfl Hfs.
    match type of H2 with
    | waitForReadiness ?n ?t ?u ?T ?f ?w0 = _ =>
        change (WaitForReadiness.checkContinually n t u T (clock w0) f
                  (Str "(unknown)") w0
                = (Return tt, w3)) in H2
    end.
    match type of H2 with
    | WaitForReadiness.checkContinually _ _ ?u _ ?st _ ?l ?w0 = _ =>
        destruct (readiness_effects (fun e => f e = false) net
                    (env_NETLIFY_TOKEN cfg) u MAX_WAIT_TIMEOUT st fuel
                    (Hfr _) Hfl Hfs l w0) as (new & Hnew & HP)
    end.
    rewrite H2 in Hnew. cbn [snd trace record] in Hnew. rewrite Hnew.
    rewrite (count_app_none f new _ HP). unfold count.
    cbn [filter]. now rewrite Hfl. }
  (* phase 3 *)
  assert (Hp3 : forall f, (forall r, f (Http r) = false) ->
                (forall m o, f (Log m o) = false) ->
                (forall ms, f (Sleep ms) = false) ->
                count f (trace w4) = count f (trace w3)).
  { intros f Hfr Hfl Hfs.
    destruct (waitForUrl_loop_effects (fun e => f e = false) net
                (deploy_url d) (js_div (MAX_READY_TIMEOUT cfg) (of_Z 3)) fuel
                (Hfr _) Hfl Hfs 0
                (record (Log ("Waiting for a 200 from: " ++ deploy_url d) [])
                   w3)) as (new & Hnew & HP).
    rewrite H3 in Hnew. cbn [snd trace record] in Hnew. rewrite Hnew.
    rewrite (count_app_none f new _ HP). unfold count.
    cbn [filter]. now rewrite Hfl. }
  split.
  - rewrite (Hp3 is_failed), (Hp2 is_failed), <- (Hp1 is_failed);
      try reflexivity.
  - rewrite (Hp3 is_output), (Hp2 is_output); try reflexivity.
    unfold count. cbn [filter is_output Datatypes.length].
    fold (count is_output (trace w1)).
    rewrite (Hp1 is_output); try reflexivity. unfold count. lia.
Qed.

Lemma run_success_reports_no_failure_witness :
  run all_good push_config 1 initial
  = (Return tt,
     {| clock := 300; sent := 3;
        trace :=
          [Http (HEAD preview_url);
           Log "Waiting for a 200 from: https://xyz--mysite.netlify.app" [];
           Log "Deployment ready (0.1s)" [];
           Http (GET status_endpoint "Bearer secret");
           Log "Waiting for Netlify deployment xyz in site mysite to be ready" [];
           SetOutput "url" (Str preview_url);
           SetOutput "deploy_id" (Str "xyz");
           Log "Deployment created (0.1s)" [];
           Http (GET list_endpoint "Bearer secret");
           Log "Waiting for Netlify to create a deployment for git SHA abc123" []]
     |}).
Proof.
  refine (proj1 (run_success_reports_no_failure
                   all_good push_config 1 initial
                   (snd (run_phase1 all_good push_config 1 initial))
                   _ _ (Str "abc123") ready_deploy
                   eq_refl eq_refl eq_refl eq_refl eq_refl eq_refl eq_refl)).
Defined.

(** ** The budget of the URL waiter in a run *)

(** X14: in a run the budget of the URL waiter is the [max_timeout] input
    when that is a number other than zero, and 60 seconds when the input is
    not a number or is zero; with the default and a site that rejects every
    request, the URL waiter makes exactly 20 attempts before it reports. *)
Theorem MAX_READY_TIMEOUT_default
    (net : network) (cfg : config) (url : string) (fuel : nat) (w : world) :
  (20 <= fuel)%nat ->
  (forall j, (j < 20)%nat ->
             rejected (result (net (sent w + j)%nat (HEAD url))) = true) ->
  (forall q, input_max_timeout cfg = Num q -> ~ (q == 0)%Q ->
             MAX_READY_TIMEOUT cfg = Num q)
  /\ (input_max_timeout cfg = NaN
      \/ (exists q, input_max_timeout cfg = Num q /\ (q == 0)%Q) ->
      MAX_READY_TIMEOUT cfg = of_Z 60
      /\ exists w',
          waitForUrl net url (MAX_READY_TIMEOUT cfg) fuel w
          = (Return tt,
             record (SetFailed ("Timeout reached: Unable to connect to " ++ url))
               w')
          /\ count is_head (trace w') = (count is_head (trace w) + 20)%nat).
Proof.
  intros Hfuel Hrej. split.
  - intros q Hq Hnz. unfold MAX_READY_TIMEOUT, number_or. rewrite Hq.
    destruct (Qeq_bool q 0) eqn:E; [| reflexivity].
    apply Qeq_bool_iff in E. contradiction.
  - intros Hfalsy.
    assert (Hdef : MAX_READY_TIMEOUT cfg = of_Z 60).
    { unfold MAX_READY_TIMEOUT, number_or.
      destruct Hfalsy as [-> | (q & -> & Hz)]; [reflexivity |].
      apply Qeq_bool_iff in Hz. now rewrite Hz. }
    split; [exact Hdef |]. rewrite Hdef.
    pose proof (waitForUrl_exhausted net url 60 fuel w) as H.
    change (Z.to_nat (Qceiling (60 / 3))) with 20%nat in H.
    destruct (H Hfuel Hrej) as (w' & Hrun & _ & Hh & _).
    exists w'. now split.
Qed.

Lemma MAX_READY_TIMEOUT_default_witness :
  MAX_READY_TIMEOUT pull_request_config = of_Z 60
  /\ exists w',
      waitForUrl never_up preview_url (MAX_READY_TIMEOUT pull_request_config)
        20 initial
      = (Return tt,
         record
           (SetFailed ("Timeout reached: Unable to connect to " ++ preview_url))
           w')
      /\ count is_head (trace w') = 20%nat.
Proof.
  refine (proj2 (MAX_READY_TIMEOUT_default never_up pull_request_config
                   preview_url 20 initial (le_n 20) _) (or_introl eq_refl)).
  intros j _. reflexivity.
Defined.

Lemma loop_returns_clock (net : network) (url : string) (iterations : number)
    (n : nat) :
  forall (fuel : nat) (i : Z) (w : world),
    (n < fuel)%nat ->
    (forall j, (j < n)%nat ->
               rejected (result (net (sent w + j)%nat (HEAD url))) = true) ->
    rejected (result (net (sent w + n)%nat (HEAD url))) = false ->
    (forall j, (j <= n)%nat -> js_lt (of_Z (i + Z.of_nat j)) iterations = true) ->
    exists w',
      waitForUrl_loop net url iterations fuel i w = (Return true, w')
      /\ sent w' = (sent w + S n)%nat
      /\ count is_sleep (trace w') = (count is_sleep (trace w) + n)%nat
      /\ clock w'
         = clock w + 3000 * Z.of_nat n + latency net (HEAD url) (sent w) (S n).
Proof.
  induction n as [| n IH]; intros fuel i w Hfuel Hrej Hok Hlt.
  - destruct fuel as [| fuel]; [lia |].
    rewrite Nat.add_0_r in Hok.
    rewrite (loop_attempt_fulfilled net url iterations fuel i w); [| | exact Hok].
    + eexists. split; [reflexivity |].
      cbn [clock sent trace requested latency]. unfold count.
      cbn [filter is_sleep]. repeat split; lia.
    + specialize (Hlt 0%nat). rewrite Z.add_0_r in Hlt. apply Hlt. lia.
  - destruct fuel as [| fuel]; [lia |].
    destruct (loop_attempt_rejected net url iterations fuel i w)
      as (e & _ & Hstep).
    + specialize (Hlt 0%nat). rewrite Z.add_0_r in Hlt. apply Hlt. lia.
    + specialize (Hrej 0%nat). rewrite Nat.add_0_r in Hrej. apply Hrej. lia.
    + rewrite Hstep.
      match goal with
      | |- context [waitForUrl_loop _ _ _ fuel (i + 1) ?w1] =>
          destruct (IH fuel (i + 1) w1) as (w' & Hrun & Hs & Hz & Hc)
      end.
      * lia.
      * intros j Hj. simpl sent.
        replace (S (sent w) + j)%nat with (sent w + S j)%nat by lia.
        apply Hrej. lia.
      * simpl sent.
        replace (S (sent w) + n)%nat with (sent w + S n)%nat by lia.
        exact Hok.
      * intros j Hj.
        replace (i + 1 + Z.of_nat j) with (i + Z.of_nat (S j)) by lia.
        apply Hlt. lia.
      * exists w'. split; [exact Hrun |].
        cbn [clock sent trace slept record requested] in Hs, Hz, Hc.
        unfold count in *.
        cbn [filter is_sleep Datatypes.length] in Hz.
        repeat split; [lia | lia |].
        rewrite Hc, Nat2Z.inj_succ.
        change (latency net (HEAD url) (sent w) (S (S n)))
          with (duration (net (sent w) (HEAD url))
                + latency net (HEAD url) (S (sent w)) (S n)).
        lia.
Qed.

(** X15: when the first [n] attempts of the URL waiter are rejected and
    the next one is fulfilled within the budget, the waiter returns after
    [n + 1] requests and [n] timers of 3 seconds, without reporting
    anything: the clock has advanced by [n] times 3 seconds plus the time
    the requests took. *)
Theorem waitForUrl_returns_after_n_retries
    (net : network) (url : string) (b : Q) (n : nat) (fuel : nat) (w : world) :
  (n < fuel)%nat ->
  (inject_Z (Z.of_nat n) < b / 3)%Q ->
  (forall j, (j < n)%nat ->
             rejected (result (net (sent w + j)%nat (HEAD url))) = true) ->
  rejected (result (net (sent w + n)%nat (HEAD url))) = false ->
  exists w',
    waitForUrl net url (Num b) fuel w = (Return tt, w')
    /\ sent w' = (sent w + S n)%nat
    /\ count is_sleep (trace w') = (count is_sleep (trace w) + n)%nat
    /\ clock w'
       = clock w + 3000 * Z.of_nat n + latency net (HEAD url) (sent w) (S n).
Proof.
  intros Hfuel Hlt Hrej Hok.
  destruct (loop_returns_clock net url (js_div (Num b) (of_Z 3)) n fuel 0 w
              Hfuel Hrej Hok)
    as (w' & Hrun & Hrest).
  - intros j Hj. apply loop_condition. apply lt_Qceiling in Hlt. lia.
  - exists w'. split; [| exact Hrest].
    unfold waitForUrl, bind. cbv zeta. rewrite Hrun. reflexivity.
Qed.

Lemma waitForUrl_returns_after_n_retries_witness :
  exists w',
    waitForUrl up_at_fourth preview_url (Num 12) 4 initial = (Return tt, w')
    /\ sent w' = 4%nat
    /\ count is_sleep (trace w') = 3%nat
    /\ clock w' = 9400.
Proof.
  refine (waitForUrl_returns_after_n_retries up_at_fourth preview_url 12 3 4
            initial (le_n 4) eq_refl _ eq_refl).
  intros j Hj. destruct j as [| [| [| j]]]; [reflexivity .. | lia].
Defined.
